(** * hurting.py: the quantitative engine of [AnimalDiseaseAI]

    A shallow embedding of the SIR simulator, the intervention evaluator,
    the fecal-sample risk score and the cached advisory client of
    [src/hurting.py], together with the properties of these functions; and
    of the species profiles, the advice text, the ledger with its exports
    and the before/after comparison of [main].

    Conventions of the embedding.
    - Python numbers ([int] and [float]) are read as exact rationals [Q];
      equality of numbers is [Qeq] ([==]).  Properties stated over [Q] are
      properties in exact arithmetic.  The module [Binary64] evaluates the
      risk score with the kernel's binary64 numbers instead, where the
      rounding of the source's [float] decides what is computed.
    - A Python call either returns a value or raises an exception:
      [outcome A] with [Return] and [Raise].
    - Python lists are [list]s, [l.append(x)] is [l ++ [x]], and a negative
      index [l[-k]] is [getitem_neg l k], raising [IndexError] out of range.
    - The dictionary [analysis_cache] is a [gmap string string]. *)

From Stdlib Require Import ZArith QArith Qminmax Qpower Lqa Lia.
From Stdlib Require Import PrimFloat.
From stdpp Require Import gmap strings list.

Local Open Scope Q_scope.

(** ** Python prelude *)

Module Py.

(** Exceptions.  [ZeroDivisionError], [IndexError], [ValueError],
    [KeyError] and [TypeError] are built-in classes; [RequestException] is
    the base class of the errors of the HTTP client; [OtherError] stands for
    every class that none of the handlers of the source names.
    [InvalidParameter] is the failure named by the written specification,
    which no statement of the source constructs. *)
Inductive exn : Set :=
| ZeroDivisionError
| IndexError
| ValueError
| KeyError
| TypeError
| RequestException
| OtherError
| InvalidParameter.

Inductive outcome (A : Type) : Type :=
| Return (a : A)
| Raise (e : exn).

Arguments Return {A} a.
Arguments Raise {A} e.

Definition bind {A B : Type} (m : outcome A) (k : A -> outcome B) : outcome B :=
  match m with
  | Return a => k a
  | Raise e => Raise e
  end.


(** [a / b] on numbers. *)
Definition truediv (a b : Q) : outcome Q :=
  if Qeq_bool b 0 then Raise ZeroDivisionError else Return (a / b).

(** [l[-k]] for [k >= 1]. *)
Definition getitem_neg {A : Type} (l : list A) (k : nat) : outcome A :=
  if ((1 <=? k) && (k <=? length l))%nat
  then match l !! (length l - k)%nat with
       | Some x => Return x
       | None => Raise IndexError
       end
  else Raise IndexError.

(** [range(n)] and [len(range(a, b))]. *)
Definition range (n : Z) : list Z :=
  List.map Z.of_nat (seq 0 (Z.to_nat n)).

Definition range_len (a b : Z) : nat := Z.to_nat (b - a).

(** Strict comparisons of numbers, as booleans. *)
Definition ltb (a b : Q) : bool := negb (Qle_bool b a).
Definition gtb (a b : Q) : bool := ltb b a.

(** [min(a, b)] and [max(a, b)] return the first argument on ties. *)
Definition min (a b : Q) : Q := if ltb b a then b else a.
Definition max (a b : Q) : Q := if gtb b a then b else a.

(** [sum(...)] of a sequence of numbers, from [0], left to right. *)
Definition sum (l : list Q) : Q := fold_left Qplus l 0.

End Py.

Import Py.

Notation "'do' x <- m ; k" := (bind m (fun x => k))
  (at level 10, x name, m at level 100, k at level 200, only parsing).

(** ** The model object *)

Record Params : Set := {
  beta : Q;
  gamma : Q;
  population : Q;
  initial_infected : Q
}.

Record EnvFactors : Set := {
  temperature : Q;
  humidity : Q;
  migration_rate : Q
}.

(** [self]: the fields of [AnimalDiseaseAI] read or written by the
    modelled methods. *)
Record AnimalDiseaseAI : Type := {
  params : Params;
  env_factors : EnvFactors;
  analysis_cache : gmap string string
}.

(** The values set by [__init__]. *)
Definition init : AnimalDiseaseAI := {|
  params := {| beta := 0.3; gamma := 0.1; population := 1000; initial_infected := 1 |};
  env_factors := {| temperature := 20; humidity := 60; migration_rate := 0.005 |};
  analysis_cache := ∅
|}.

(** ** Epidemic simulator: [generate_simulation] *)

Module Simulator.

(** The three lists [S], [I], [R] of the loop. *)
Record series : Set := {
  Susceptible : list Q;
  Infected : list Q;
  Recovered : list Q
}.

Record DataFrame : Set := {
  Day : list Z;
  columns : series
}.

(** [pd.DataFrame({...})] refuses columns of different lengths. *)
Definition make_DataFrame (day : list Z) (c : series) : outcome DataFrame :=
  if   (length day =? length (Susceptible c))%nat
    && (length day =? length (Infected c))%nat
    && (length day =? length (Recovered c))%nat
  then Return {| Day := day; columns := c |}
  else Raise ValueError.

Definition adjusted_beta (self : AnimalDiseaseAI) : Q :=
  beta (params self) *
  (1 + 0.02 * (temperature (env_factors self) - 20) / 10
     + 0.015 * (humidity (env_factors self) - 60) / 20).

(** One iteration of the [for] loop. *)
Definition loop_body (self : AnimalDiseaseAI) (ab : Q) (st : series) : outcome series :=
  let p := params self in
  let m := migration_rate (env_factors self) in
  do s1 <- getitem_neg (Susceptible st) 1 ;
  do i1 <- getitem_neg (Infected st) 1 ;
  do new_infected <- truediv (ab * s1 * i1) (population p) ;
  do i1' <- getitem_neg (Infected st) 1 ;
  let new_recovered := gamma p * i1' in
  do sa <- getitem_neg (Susceptible st) 1 ;
  do sb <- getitem_neg (Susceptible st) 1 ;
  let S' := Susceptible st ++ [sa - new_infected - m * sb] in
  do ia <- getitem_neg (Infected st) 1 ;
  do s2 <- getitem_neg S' 2 ;
  let I' := Infected st ++ [ia + new_infected - new_recovered + m * s2] in
  do ra <- getitem_neg (Recovered st) 1 ;
  let R' := Recovered st ++ [ra + new_recovered] in
  Return {| Susceptible := S'; Infected := I'; Recovered := R' |}.

(** [n] iterations of the loop from state [st]. *)
Fixpoint loop (self : AnimalDiseaseAI) (ab : Q) (n : nat) (st : series) : outcome series :=
  match n with
  | O => Return st
  | S n' => do st' <- loop_body self ab st ; loop self ab n' st'
  end.

Definition initial_series (self : AnimalDiseaseAI) : series := {|
  Susceptible := [population (params self) - initial_infected (params self)];
  Infected := [initial_infected (params self)];
  Recovered := [0]
|}.

Definition generate_simulation (self : AnimalDiseaseAI) (days : Z) : outcome DataFrame :=
  let ab := adjusted_beta self in
  do st <- loop self ab (range_len 1 days) (initial_series self) ;
  make_DataFrame (range days) st.

(** Entry [t] of a column. *)
Definition at_day (l : list Q) (t : nat) : Q := nth t l 0.

(** The quantities of day [t >= 1], read off the finished columns. *)
Definition new_infected_at (self : AnimalDiseaseAI) (c : series) (t : nat) : Q :=
  adjusted_beta self * at_day (Susceptible c) (t - 1) * at_day (Infected c) (t - 1)
  / population (params self).

Definition new_recovered_at (self : AnimalDiseaseAI) (c : series) (t : nat) : Q :=
  gamma (params self) * at_day (Infected c) (t - 1).

(** The update of [I] at day [t], with the migration term taken from
    entry [u] of [S]. *)
Definition infected_update (self : AnimalDiseaseAI) (c : series) (t u : nat) : Prop :=
  at_day (Infected c) t ==
    at_day (Infected c) (t - 1) + new_infected_at self c t - new_recovered_at self c t
    + migration_rate (env_factors self) * at_day (Susceptible c) u.

Definition susceptible_update (self : AnimalDiseaseAI) (c : series) (t : nat) : Prop :=
  at_day (Susceptible c) t ==
    at_day (Susceptible c) (t - 1) - new_infected_at self c t
    - migration_rate (env_factors self) * at_day (Susceptible c) (t - 1).

Definition recovered_update (self : AnimalDiseaseAI) (c : series) (t : nat) : Prop :=
  at_day (Recovered c) t == at_day (Recovered c) (t - 1) + new_recovered_at self c t.

(** The recurrence as the specification words it: the migration term of
    day [t] reads [S[t-2]], and [S[0]] when [t = 1]. *)
Definition lagged_recurrence (self : AnimalDiseaseAI) (c : series) (t : nat) : Prop :=
  infected_update self c t (t - 2).

(** The recurrence of the loop: every update of day [t] reads day [t-1]. *)
Definition recurrence (self : AnimalDiseaseAI) (c : series) (t : nat) : Prop :=
  susceptible_update self c t /\ infected_update self c t (t - 1) /\ recovered_update self c t.

(** The columns hold [k >= 1] days that start from the initial condition
    and follow the recurrence. *)
Record trajectory (self : AnimalDiseaseAI) (c : series) (k : nat) : Prop := {
  traj_len_S : length (Susceptible c) = k;
  traj_len_I : length (Infected c) = k;
  traj_len_R : length (Recovered c) = k;
  traj_pos : (1 <= k)%nat;
  traj_S0 : at_day (Susceptible c) 0 == population (params self) - initial_infected (params self);
  traj_I0 : at_day (Infected c) 0 == initial_infected (params self);
  traj_R0 : at_day (Recovered c) 0 == 0;
  traj_step : forall t, (1 <= t < k)%nat -> recurrence self c t
}.

(** The columns after one iteration in which every read and the division
    succeed. *)
Definition next_series (self : AnimalDiseaseAI) (c : series) : series :=
  let s := at_day (Susceptible c) (length (Susceptible c) - 1) in
  let i := at_day (Infected c) (length (Infected c) - 1) in
  let r := at_day (Recovered c) (length (Recovered c) - 1) in
  let m := migration_rate (env_factors self) in
  let new_infected := adjusted_beta self * s * i / population (params self) in
  let new_recovered := gamma (params self) * i in
  {| Susceptible := Susceptible c ++ [s - new_infected - m * s];
     Infected := Infected c ++ [i + new_infected - new_recovered + m * s];
     Recovered := Recovered c ++ [r + new_recovered] |}.

(** The failure condition of [simulate] in the specification. *)
Definition invalid_parameters (self : AnimalDiseaseAI) (days : Z) : Prop :=
  population (params self) <= 0
  \/ population (params self) < initial_infected (params self)
  \/ (days < 1)%Z.

End Simulator.


(** ** Intervention evaluator: [evaluate_interventions] *)

Module Interventions.

Record Intervention : Set := {
  cost : Z;
  effectiveness : Q;
  beta_reduction : Q
}.

(** The dictionary [self.interventions], never written after [__init__]. *)
Definition interventions : gmap string Intervention :=
  list_to_map [
    ("vaccination", {| cost := 5000; effectiveness := 0.7; beta_reduction := 0.3 |});
    ("isolation",   {| cost := 2000; effectiveness := 0.9; beta_reduction := 0.5 |});
    ("sanitation",  {| cost := 1000; effectiveness := 0.6; beta_reduction := 0.2 |});
    ("restriction", {| cost := 3000; effectiveness := 0.8; beta_reduction := 0.4 |})
  ].

Record Evaluation : Set := {
  total_cost : Z;
  r0_reduction : Q;
  new_r0 : Q;
  measures : list string
}.

(** The body of [for measure in selected_measures], on the pair
    [(total_cost, total_beta_reduction)]. *)
Definition add_measure (acc : Z * Q) (measure : string) : Z * Q :=
  match interventions !! measure with
  | Some iv => ((fst acc + cost iv)%Z, snd acc + beta_reduction iv)
  | None => acc
  end.

(** What one measure adds to each total; an unknown measure adds nothing. *)
Definition cost_of (measure : string) : Z :=
  match interventions !! measure with Some iv => cost iv | None => 0%Z end.

Definition reduction_of (measure : string) : Q :=
  match interventions !! measure with Some iv => beta_reduction iv | None => 0 end.

Definition totals (selected_measures : list string) : Z * Q :=
  fold_left add_measure selected_measures (0%Z, 0).

Definition evaluate_interventions (self : AnimalDiseaseAI)
    (selected_measures : list string) : outcome Evaluation :=
  let p := params self in
  let total_cost := fst (totals selected_measures) in
  let total_beta_reduction := snd (totals selected_measures) in
  do original_r0 <- truediv (beta p) (gamma p) ;
  let new_beta := max 0.01 (beta p * (1 - total_beta_reduction)) in
  do new_r0 <- truediv new_beta (gamma p) ;
  do ratio <- truediv (original_r0 - new_r0) original_r0 ;
  let reduction_percent := ratio * 100 in
  Return {| total_cost := total_cost;
            r0_reduction := reduction_percent;
            new_r0 := new_r0;
            measures := selected_measures |}.

End Interventions.

(** ** Risk scoring: the arithmetic of [analyze_feces] *)

Module RiskScoring.

(** An entry of [result["detection"]]. *)
Module Detection.
Record t : Set := { name : string; confidence : Q }.
End Detection.

(** An entry of [result["classification"]]. *)
Module Classification.
Record t : Set := { label : string; confidence : Q }.
End Classification.

Record FecesConfig : Set := {
  risk_threshold : Q;
  high_risk_objects : list string;
  high_risk_features : list string
}.

Definition feces_config : FecesConfig := {|
  risk_threshold := 0.65;
  high_risk_objects := ["bird"; "chicken"; "duck"];
  high_risk_features := ["diarrhea"; "abnormal"; "parasite"; "blood"; "mucus"; "liquid"]
|}.

(** [str.lower()] on the letters A to Z; other bytes are kept. *)
Definition lower_ascii (c : Ascii.ascii) : Ascii.ascii :=
  let n := Ascii.nat_of_ascii c in
  if ((65 <=? n) && (n <=? 90))%nat then Ascii.ascii_of_nat (n + 32) else c.

Fixpoint lower (s : string) : string :=
  match s with
  | EmptyString => EmptyString
  | String c s' => String (lower_ascii c) (lower s')
  end.

(** [needle in hay] on strings. *)
Fixpoint contains (needle hay : string) : bool :=
  String.prefix needle hay ||
  match hay with
  | EmptyString => false
  | String _ hay' => contains needle hay'
  end.

Definition is_risk_object (obj : Detection.t) : bool :=
  bool_decide (Detection.name obj ∈ high_risk_objects feces_config)
  && gtb (Detection.confidence obj) 0.5.

Definition is_risk_feature (feat : Classification.t) : bool :=
  existsb (fun keyword => contains keyword (lower (Classification.label feat)))
          (high_risk_features feces_config)
  && gtb (Classification.confidence feat) 50.

Definition risk_objects (detection : list Detection.t) : list Detection.t :=
  List.filter is_risk_object detection.

Definition risk_features (classification : list Classification.t) : list Classification.t :=
  List.filter is_risk_feature classification.

Definition avian_flu_risk (h_mean s_mean : Q) : Q :=
  if ltb h_mean 40 && gtb s_mean 0.65
  then 0.3 * min ((40 - h_mean) / 10 + (s_mean - 0.65) / 0.1) 1
  else 0.

Definition total_risk (detection : list Detection.t)
    (classification : list Classification.t) (h_mean s_mean : Q) : Q :=
  sum (List.map (fun obj => Detection.confidence obj * 0.5) (risk_objects detection))
  + sum (List.map (fun feat => Classification.confidence feat * 0.2) (risk_features classification))
  + avian_flu_risk h_mean s_mean
  + (if ltb h_mean 50 then 0.3 else 0)
  + (if gtb s_mean 0.6 then 0.3 else 0).

(** The two weighted sums of [total_risk], named. *)
Definition object_score (detection : list Detection.t) : Q :=
  sum (List.map (fun obj => Detection.confidence obj * 0.5) (risk_objects detection)).

Definition feature_score (classification : list Classification.t) : Q :=
  sum (List.map (fun feat => Classification.confidence feat * 0.2)
                (risk_features classification)).

Definition threshold (detection : list Detection.t) : Q :=
  if existsb (fun obj => bool_decide (Detection.name obj ∈ ["chicken"; "duck"]))
             (risk_objects detection)
  then 0.6 else 0.65.

(** One input is obtained from another by raising the confidence of a
    single detection item or of a single classification item. *)
Definition inputs : Set := (list Detection.t * list Classification.t)%type.

Inductive raised : inputs -> inputs -> Prop :=
| raised_detection (before after : list Detection.t) (obj : Detection.t) (c : Q)
    (classification : list Classification.t) :
    Detection.confidence obj <= c ->
    raised (before ++ obj :: after, classification)
           (before ++ {| Detection.name := Detection.name obj;
                         Detection.confidence := c |} :: after, classification)
| raised_classification (detection : list Detection.t)
    (before after : list Classification.t) (feat : Classification.t) (c : Q) :
    Classification.confidence feat <= c ->
    raised (detection, before ++ feat :: after)
           (detection, before ++ {| Classification.label := Classification.label feat;
                                    Classification.confidence := c |} :: after).

(** ["高风险"] and ["低风险"]. *)
Inductive RiskLevel : Set := HighRisk | LowRisk.

Record Analysis : Set := {
  risk_level : RiskLevel;
  probability : Q;
  detected_objects : list Detection.t;
  detected_features : list Classification.t;
  local_h : Q;
  local_s : Q;
  local_v : Q;
  analysis_avian_flu_risk : Q;
  h_alert : bool;
  s_alert : bool
}.

(** [analyze_feces] from the point where the detector's [result] and the
    HSV means are known; the timestamp and the advice text are left out. *)
Definition analyze_feces (detection : list Detection.t)
    (classification : list Classification.t) (h_mean s_mean v_mean : Q) : Analysis :=
  let total := total_risk detection classification h_mean s_mean in
  {| risk_level := if gtb total (threshold detection) then HighRisk else LowRisk;
     probability := total;
     detected_objects := risk_objects detection;
     detected_features := risk_features classification;
     local_h := h_mean;
     local_s := s_mean;
     local_v := v_mean;
     analysis_avian_flu_risk := avian_flu_risk h_mean s_mean;
     h_alert := ltb h_mean 40;
     s_alert := gtb s_mean 0.65 |}.

End RiskScoring.

(** ** Advisory client: [ai_analysis_with_retry] and [ai_analysis] *)

Module Advisory.

(** What the process has done to the outside: the number of
    [requests.post] calls issued, and the arguments of [time.sleep] in the
    order of the calls. *)
Record world : Set := {
  posts : nat;
  sleeps : list Z
}.

Definition post (w : world) : world :=
  {| posts := S (posts w); sleeps := sleeps w |}.

Definition sleep (d : Z) (w : world) : world :=
  {| posts := posts w; sleeps := sleeps w ++ [d] |}.

Section Client.

(** [service n] is what the body of the [try] block does at the [n]-th
    request of the process (counting from 0): it evaluates
    [result["choices"][0]["message"]["content"]] to a text, or an exception
    leaves the block. *)
Variable service : nat -> outcome string.

(** [str(self.params)] and [str(self.env_factors)]. *)
Variable str_params : Params -> string.
Variable str_env_factors : EnvFactors -> string.

(** The [while retries < max_retries] loop; [remaining] is
    [max_retries - retries], the number of iterations the test still
    allows. *)
Fixpoint retry_loop (remaining : nat) (retries : Z) (w : world)
    : outcome (option string) * world :=
  match remaining with
  | O => (Return None, w)
  | S remaining' =>
      let w1 := post w in
      match service (posts w) with
      | Return content => (Return (Some content), w1)
      | Raise RequestException =>
          let retries' := (retries + 1)%Z in
          retry_loop remaining' retries' (sleep (2 ^ retries')%Z w1)
      | Raise KeyError => (Return None, w1)
      | Raise e => (Raise e, w1)
      end
  end.

Definition ai_analysis_with_retry (self : AnimalDiseaseAI) (query : string)
    (max_retries : Z) (w : world) : outcome (option string) * world :=
  retry_loop (Z.to_nat max_retries) 0%Z w.

Definition cache_key (self : AnimalDiseaseAI) (query : string) : string :=
  (query ++ "_" ++ str_params (params self) ++ "_" ++ str_env_factors (env_factors self))%string.

(** [if result:] on [None] or a text. *)
Definition truthy (result : option string) : bool :=
  match result with
  | Some text => negb (String.eqb text "")
  | None => false
  end.

Definition set_cache (self : AnimalDiseaseAI) (k v : string) : AnimalDiseaseAI :=
  {| params := params self;
     env_factors := env_factors self;
     analysis_cache := <[k := v]> (analysis_cache self) |}.

Definition ai_analysis (self : AnimalDiseaseAI) (query : string) (w : world)
    : outcome (option string) * (AnimalDiseaseAI * world) :=
  let key := cache_key self query in
  match analysis_cache self !! key with
  | Some text => (Return (Some text), (self, w))
  | None =>
      match ai_analysis_with_retry self query 3 w with
      | (Return result, w') =>
          let self' :=
            match result with
            | Some text => if truthy result then set_cache self key text else self
            | None => self
            end in
          (Return result, (self', w'))
      | (Raise e, w') => (Raise e, (self, w'))
      end
  end.

End Client.

(** A request succeeded when it returned a result that passes the test
    [if result:] of [ai_analysis]; the callers apply the same test
    ([analysis if analysis else ...], [result or ...]). *)
Definition succeeded (o : outcome (option string)) : bool :=
  match o with
  | Return result => truthy result
  | Raise _ => false
  end.


(** The waits after [f] failed requests, the counter being [r] before the
    first of them: [2 ^ (r+1)], ..., [2 ^ (r+f)]. *)
Definition backoff_from (r : Z) (f : nat) : list Z :=
  List.map (fun k => (2 ^ (r + Z.of_nat k))%Z) (seq 1 f).

Definition backoff (f : nat) : list Z := backoff_from 0 f.

(** How a call of the retry client that made [f] failed requests from
    world [w] ends when it is allowed [n] requests. *)
Definition ends_after (service : nat -> outcome string) (n : nat) (w : world)
    (f : nat) (res : outcome (option string) * world) : Prop :=
  (f = n -> fst res = Return None /\ posts (snd res) = (posts w + n)%nat)
  /\ ((f < n)%nat ->
      posts (snd res) = (posts w + f + 1)%nat
      /\ match service (posts w + f)%nat with
         | Return content => fst res = Return (Some content)
         | Raise RequestException => False
         | Raise KeyError => fst res = Return None
         | Raise e => fst res = Raise e
         end).

End Advisory.

(** ** Concrete inputs used in the examples *)

Module Inputs.

Definition with_params (p : Params) : AnimalDiseaseAI :=
  {| params := p; env_factors := env_factors init; analysis_cache := ∅ |}.

(** More infected animals than animals. *)
Definition overfull : AnimalDiseaseAI :=
  with_params {| beta := 0.3; gamma := 0.1; population := 10; initial_infected := 20 |}.

(** A negative population. *)
Definition negative_population : AnimalDiseaseAI :=
  with_params {| beta := 0.3; gamma := 0.1; population := -5; initial_infected := 1 |}.

(** No recovery at all. *)
Definition no_recovery : AnimalDiseaseAI :=
  with_params {| beta := 0.3; gamma := 0; population := 1000; initial_infected := 1 |}.

(** A transmission rate below the floor [0.01] of [new_beta]. *)
Definition tiny_beta : AnimalDiseaseAI :=
  with_params {| beta := 0.005; gamma := 0.1; population := 1000; initial_infected := 1 |}.

(** A service whose first request fails, whose second answer lacks a key,
    and which answers from then on. *)
Definition flaky (n : nat) : outcome string :=
  match n with
  | O => Raise RequestException
  | S O => Raise KeyError
  | _ => Return "late"%string
  end.

(** A service that is down, and one that always answers. *)
Definition down (n : nat) : outcome string := Raise RequestException.

(** A stand-in for [str] of the two dictionaries. *)
Definition no_str {A : Type} (x : A) : string := ""%string.

Definition fresh : Advisory.world := {| Advisory.posts := 0; Advisory.sleeps := [] |}.

End Inputs.

(** ** Species profiles: [set_species] *)

Module Species.

(** [self.params['beta'] = b; self.params['gamma'] = g]. *)
Definition set_rates (self : AnimalDiseaseAI) (b g : Q) : AnimalDiseaseAI :=
  {| params := {| beta := b; gamma := g;
                  population := population (params self);
                  initial_infected := initial_infected (params self) |};
     env_factors := env_factors self;
     analysis_cache := analysis_cache self |}.

Record Profile : Set := {
  beta : Q;
  gamma : Q;
  incubation : Z
}.

(** The dictionary [self.species_params]. *)
Definition species_params : gmap string Profile :=
  list_to_map [
    ("poultry", {| beta := 0.35; gamma := 0.08; incubation := 2 |});
    ("swine",   {| beta := 0.25; gamma := 0.12; incubation := 4 |});
    ("cattle",  {| beta := 0.15; gamma := 0.15; incubation := 7 |})
  ].

(** [set_species], on the object and its field [current_species]; the
    result is the returned boolean and the two after the call. *)
Definition set_species (self : AnimalDiseaseAI) (current_species species : string)
    : bool * (AnimalDiseaseAI * string) :=
  match species_params !! species with
  | Some profile => (true, (set_rates self (beta profile) (gamma profile), species))
  | None => (false, (self, current_species))
  end.

End Species.

(** ** The before/after comparison of [main] (tab 5) *)

Module Comparison.

Import Simulator Interventions.

(** [model.params['beta'] = b]. *)
Definition set_beta (self : AnimalDiseaseAI) (b : Q) : AnimalDiseaseAI :=
  {| params := {| beta := b; gamma := gamma (params self);
                  population := population (params self);
                  initial_infected := initial_infected (params self) |};
     env_factors := env_factors self;
     analysis_cache := analysis_cache self |}.

Record Comparison : Set := {
  evaluation : Evaluation;
  original_data : DataFrame;
  new_data : DataFrame
}.

(** The transmission rate written into the model for the second run. *)
Definition reduced_beta (self : AnimalDiseaseAI) (ev : Evaluation) : outcome Q :=
  do ratio <- truediv (r0_reduction ev) 100 ;
  Return (beta (params self) * (1 - ratio)).

(** The body of [if selected: ... else: ...]: evaluation, first run,
    overwrite of [beta], second run, restoration of [beta].  The result is
    what the block computed, or the exception that left it, and the model as
    the block leaves it; plotting is left out. *)
Definition compare (self : AnimalDiseaseAI) (selected : list string)
    : outcome (option Comparison) * AnimalDiseaseAI :=
  match selected with
  | [] => (Return None, self)
  | _ :: _ =>
      match evaluate_interventions self selected with
      | Raise e => (Raise e, self)
      | Return ev =>
          match generate_simulation self 100 with
          | Raise e => (Raise e, self)
          | Return original =>
              let original_beta := beta (params self) in
              match reduced_beta self ev with
              | Raise e => (Raise e, self)
              | Return b' =>
                  let self' := set_beta self b' in
                  match generate_simulation self' 100 with
                  | Raise e => (Raise e, self')
                  | Return new =>
                      (Return (Some {| evaluation := ev;
                                       original_data := original;
                                       new_data := new |}),
                       set_beta self' original_beta)
                  end
              end
          end
      end
  end.

(** The figures of an evaluation, without the echoed selection. *)
Definition figures (o : outcome Evaluation) : outcome (Z * Q * Q) :=
  do ev <- o ; Return (total_cost ev, r0_reduction ev, new_r0 ev).

End Comparison.

(** ** Advice text: [_generate_advice] *)

Module Advice.

Local Open Scope string_scope.

(** The character ["\n"]. *)
Definition nl : string := String (Ascii.ascii_of_nat 10) EmptyString.

Section Format.

(** ["{:.1f}".format] and ["{:.2f}".format] on a number. *)
Variable format_1f : Q -> string.
Variable format_2f : Q -> string.

Definition low_hue (h : Q) : string :=
  "⚠️ 检测到异常低色相值(H=" ++ format_1f h ++ ")，提示可能存在消化道出血，建议："
  ++ nl ++ "- 立即隔离病禽" ++ nl ++ "- 采集样本进行PCR检测".

Definition high_saturation (s : Q) : string :=
  "⚠️ 检测到异常高饱和度(S=" ++ format_2f s ++ ")，提示严重腹泻可能，建议："
  ++ nl ++ "- 检查饮水卫生" ++ nl ++ "- 添加电解质补充剂".

Definition medium_risk : string :=
  "🔍 中等风险特征，建议：" ++ nl ++ "- 加强环境消毒（2次/日）" ++ nl ++ "- 持续监测群体体温".

Definition all_clear : string := "✅ 未检测到高风险特征".

(** The list [advice] after the three [if] statements. *)
Definition advice (h s : Q) : list string :=
  (if ltb h 40 then [low_hue h] else [])
  ++ (if gtb s 0.65 then [high_saturation s] else [])
  ++ (if ltb h 50 || gtb s 0.6 then [medium_risk] else []).

Definition _generate_advice (h s : Q) : string :=
  match advice h s with
  | [] => all_clear
  | paragraphs => String.concat (nl ++ nl) paragraphs
  end.

End Format.

End Advice.

(** ** The ledger: [feces_history] and [get_data_export] *)

Module Ledger.

Import Simulator RiskScoring.

(** A record of [feces_history]. *)
Record Entry : Set := {
  timestamp : string;
  analysis : Analysis;
  expert_advice : string
}.

(** What the collaborators of [analyze_feces] deliver for one image: the
    outcome of [_preprocess_image], the [result] of the local model ([None]
    on failure), the HSV means, and the formatted clock. *)
Record Observation : Set := {
  preprocessed : bool;
  result : option (list Detection.t * list Classification.t);
  h_mean : Q;
  s_mean : Q;
  v_mean : Q;
  now : string
}.

Section Flow.

Variable format_1f : Q -> string.
Variable format_2f : Q -> string.

(** [analyze_feces] as a whole: the two early [return None], the record, and
    the append to [feces_history]. *)
Definition analyze_image (history : list Entry) (obs : Observation)
    : option Entry * list Entry :=
  if negb (preprocessed obs) then (None, history)
  else match result obs with
       | None => (None, history)
       | Some (detection, classification) =>
           let entry :=
             {| timestamp := now obs;
                analysis := analyze_feces detection classification
                              (h_mean obs) (s_mean obs) (v_mean obs);
                expert_advice :=
                  Advice._generate_advice format_1f format_2f (h_mean obs) (s_mean obs) |} in
           (Some entry, history ++ [entry])
       end.

(** A session: the images analysed one after the other. *)
Definition analyze_all (history : list Entry) (session : list Observation) : list Entry :=
  fold_left (fun h obs => snd (analyze_image h obs)) session history.

Definition accepted (obs : Observation) : bool :=
  preprocessed obs && bool_decide (is_Some (result obs)).

(** [DataFrame.to_csv(index=False).encode('utf-8')] for the two tables. *)
Variable simulation_csv : DataFrame -> string.
Variable history_csv : list Entry -> string.

Definition get_data_export (self : AnimalDiseaseAI) (history : list Entry)
    (data_type : string) : outcome (option string) :=
  if String.eqb data_type "simulation" then
    do data <- generate_simulation self 100 ;
    Return (Some (simulation_csv data))
  else if String.eqb data_type "feces_history" then
    match history with
    | [] => Return None
    | _ :: _ => Return (Some (history_csv history))
    end
  else Return None.

End Flow.

End Ledger.

(** ** Further notions used in the properties *)

Module Notions.

(** The sum of a list of waits. *)
Definition total_wait (l : list Z) : Z := fold_right Z.add 0%Z l.

(** The slider ranges of [main] for the environment. *)
Definition in_sliders (e : EnvFactors) : Prop :=
  -10 <= temperature e /\ temperature e <= 40
  /\ 10 <= humidity e /\ humidity e <= 100.

(** Parameters for which the compartments stay within [0, population]. *)
Record tame (self : AnimalDiseaseAI) : Prop := {
  tame_population : 0 < population (params self);
  tame_infected : 0 <= initial_infected (params self) <= population (params self);
  tame_gamma : 0 <= gamma (params self) <= 1;
  tame_migration : 0 <= migration_rate (env_factors self);
  tame_beta : 0 <= Simulator.adjusted_beta self;
  tame_rate : Simulator.adjusted_beta self + migration_rate (env_factors self) <= 1
}.

(** Confidences as the detector delivers them. *)
Definition unit_confidences (detection : list RiskScoring.Detection.t) : Prop :=
  Forall (fun obj => RiskScoring.Detection.confidence obj <= 1) detection.

End Notions.

(** ** The risk score in binary64 *)

(** The arithmetic of [analyze_feces] once more, on the kernel's binary64
    numbers: every operation rounds as the source's [float] does.  Decimal
    constants denote the nearest binary64 number, as in Python.  The integer
    [0] of the source (the start of [sum], the absent bonuses) is the
    binary64 zero, which adds in the same way. *)
Module Binary64.

#[local] Set Warnings "-inexact-float".
Local Open Scope bool_scope.
Local Open Scope float_scope.

Module Detection.
Record t : Set := { name : string; confidence : float }.
End Detection.

Module Classification.
Record t : Set := { label : string; confidence : float }.
End Classification.

(** [min(a, b)]: the first argument unless the second is smaller. *)
Definition min (a b : float) : float := if b <? a then b else a.

Definition sum (l : list float) : float := fold_left PrimFloat.add l 0.

Definition is_risk_object (obj : Detection.t) : bool :=
  bool_decide (Detection.name obj
               ∈ RiskScoring.high_risk_objects RiskScoring.feces_config)
  && (0.5 <? Detection.confidence obj).

Definition is_risk_feature (feat : Classification.t) : bool :=
  existsb (fun keyword =>
             RiskScoring.contains keyword
               (RiskScoring.lower (Classification.label feat)))
          (RiskScoring.high_risk_features RiskScoring.feces_config)
  && (50 <? Classification.confidence feat).

Definition risk_objects (detection : list Detection.t) : list Detection.t :=
  List.filter is_risk_object detection.

Definition risk_features (classification : list Classification.t)
    : list Classification.t :=
  List.filter is_risk_feature classification.

(** The sum inside [min]. *)
Definition inner_sum (h_mean s_mean : float) : float :=
  (40 - h_mean) / 10 + (s_mean - 0.65) / 0.1.

Definition avian_flu_risk (h_mean s_mean : float) : float :=
  if (h_mean <? 40) && (0.65 <? s_mean)
  then 0.3 * min (inner_sum h_mean s_mean) 1
  else 0.

Definition total_risk (detection : list Detection.t)
    (classification : list Classification.t) (h_mean s_mean : float) : float :=
  sum (List.map (fun obj => Detection.confidence obj * 0.5) (risk_objects detection))
  + sum (List.map (fun feat => Classification.confidence feat * 0.2)
                  (risk_features classification))
  + avian_flu_risk h_mean s_mean
  + (if h_mean <? 50 then 0.3 else 0)
  + (if 0.6 <? s_mean then 0.3 else 0).

Definition threshold (detection : list Detection.t) : float :=
  if existsb (fun obj => bool_decide (Detection.name obj ∈ ["chicken"; "duck"]))
             (risk_objects detection)
  then 0.6 else 0.65.

Definition risk_level (detection : list Detection.t)
    (classification : list Classification.t) (h_mean s_mean : float)
    : RiskScoring.RiskLevel :=
  if threshold detection <? total_risk detection classification h_mean s_mean
  then RiskScoring.HighRisk else RiskScoring.LowRisk.

End Binary64.

(** ** The shape of a response *)

Module Response.

#[local] Set Warnings "-register-all".

(** A decoded JSON document, as [response.json()] returns it; the items of
    an object are those of the resulting [dict]. *)
Inductive value : Type :=
| Null
| Bool (b : bool)
| Number (q : Q)
| Str (s : string)
| Array (items : list value)
| Object (items : list (string * value)).




(** What the service does to one request: [Failed] when [requests.post],
    [raise_for_status] or [json] raises a [RequestException], and the decoded
    document otherwise. *)
Inductive reply : Type :=
| Failed
| Body (result : value).


End Response.

(** ** Replies used in the examples *)

Module Replies.

Import Response.

(** A well-formed answer. *)
Definition answer (text : string) : value :=
  Object [("choices"%string,
           Array [Object [("message"%string,
                           Object [("content"%string, Str text)])]])].

Definition error_report : value := Object [("error"%string, Str "busy")].

(** The replies behind [Inputs.flaky]. *)
Definition flaky (n : nat) : reply :=
  match n with
  | O => Failed
  | S O => Body error_report
  | _ => Body (answer "late")
  end.

End Replies.

Import Simulator Interventions RiskScoring Advisory.

(** * Properties *)

Ltac q_decide :=
  repeat match goal with
         | |- _ /\ _ => split
         | |- ~ _ => intros ?
         end;
  match goal with
  | H : _ == _ |- _ => vm_compute in H; discriminate H
  | H : (_ <= _)%Q |- _ => vm_compute in H; now apply H
  | H : (_ < _)%Q |- _ => vm_compute in H; discriminate H
  | |- (_ == _)%Q => vm_compute; reflexivity
  | |- (_ <= _)%Q => vm_compute; discriminate
  | |- (_ < _)%Q => vm_compute; reflexivity
  | |- _ => lia
  end.

(** ** Indexing *)

Section Indexing.

Lemma getitem_neg_1 (l : list Q) :
  l <> [] -> getitem_neg l 1 = Return (at_day l (length l - 1)).
Proof.
  intros Hl. unfold getitem_neg, at_day.
  destruct l as [|x l]; [congruence|].
  assert (Hlen : (length (x :: l) - 1 < length (x :: l))%nat) by (simpl; lia).
  destruct (lookup_lt_is_Some_2 _ _ Hlen) as [y Hy].
  rewrite Hy. erewrite nth_lookup_Some by exact Hy.
  replace (1 <=? 1)%nat with true by reflexivity.
  replace (1 <=? length (x :: l))%nat with true; [reflexivity|].
  symmetry. apply Nat.leb_le. simpl. lia.
Qed.

Lemma at_day_app_l (l : list Q) (x : Q) (t : nat) :
  (t < length l)%nat -> at_day (l ++ [x]) t = at_day l t.
Proof. intros H. unfold at_day. now apply List.app_nth1. Qed.

Lemma at_day_app_last (l : list Q) (x : Q) :
  at_day (l ++ [x]) (length l) = x.
Proof. unfold at_day. rewrite List.app_nth2, Nat.sub_diag; [reflexivity | lia]. Qed.

Lemma at_day_app_at (l : list Q) (x : Q) (k : nat) :
  length l = k -> at_day (l ++ [x]) k = x.
Proof. intros <-. apply at_day_app_last. Qed.

Lemma getitem_neg_2_snoc (l : list Q) (x : Q) :
  l <> [] -> getitem_neg (l ++ [x]) 2 = Return (at_day l (length l - 1)).
Proof.
  intros Hl. unfold getitem_neg.
  assert (Hpos : (1 <= length l)%nat) by (destruct l; [congruence | simpl; lia]).
  rewrite length_app. simpl length.
  replace (length l + 1 - 2)%nat with (length l - 1)%nat by lia.
  assert (Hlt : (length l - 1 < length l)%nat) by lia.
  rewrite lookup_app_l by exact Hlt.
  destruct (lookup_lt_is_Some_2 _ _ Hlt) as [y Hy].
  rewrite Hy. unfold at_day. erewrite nth_lookup_Some by exact Hy.
  replace (1 <=? 2)%nat with true by reflexivity.
  replace (2 <=? length l + 1)%nat with true; [reflexivity|].
  symmetry. apply Nat.leb_le. lia.
Qed.

Lemma truediv_nonzero (a b : Q) : ~ b == 0 -> truediv a b = Return (a / b).
Proof.
  intros Hb. unfold truediv.
  destruct (Qeq_bool b 0) eqn:E; [apply Qeq_bool_iff in E; contradiction | reflexivity].
Qed.

Lemma truediv_zero (a b : Q) : b == 0 -> truediv a b = Raise ZeroDivisionError.
Proof.
  intros Hb. unfold truediv.
  apply Qeq_bool_iff in Hb. now rewrite Hb.
Qed.

End Indexing.

(** ** The simulator *)

Section SimulatorFacts.

Variable self : AnimalDiseaseAI.

Let pop := population (params self).

Lemma nonempty_of_length (l : list Q) (k : nat) :
  length l = k -> (1 <= k)%nat -> l <> [].
Proof. intros <- Hk ->. simpl in Hk. lia. Qed.

Lemma initial_trajectory : trajectory self (initial_series self) 1.
Proof.
  constructor; simpl; try reflexivity; lia.
Qed.

Lemma loop_body_returns (c : series) (k : nat) :
  ~ pop == 0 -> trajectory self c k ->
  loop_body self (adjusted_beta self) c = Return (next_series self c).
Proof.
  intros Hpop [HS HI HR Hk _ _ _ _].
  pose proof (nonempty_of_length _ _ HS Hk) as HSn.
  pose proof (nonempty_of_length _ _ HI Hk) as HIn.
  pose proof (nonempty_of_length _ _ HR Hk) as HRn.
  unfold loop_body.
  rewrite (getitem_neg_1 _ HSn), (getitem_neg_1 _ HIn), (getitem_neg_1 _ HRn).
  cbn [bind].
  rewrite truediv_nonzero by exact Hpop.
  cbn [bind].
  rewrite (getitem_neg_2_snoc _ _ HSn).
  reflexivity.
Qed.

Lemma loop_body_zero_population (c : series) (k : nat) :
  pop == 0 -> trajectory self c k ->
  loop_body self (adjusted_beta self) c = Raise ZeroDivisionError.
Proof.
  intros Hpop [HS HI HR Hk _ _ _ _].
  pose proof (nonempty_of_length _ _ HS Hk) as HSn.
  pose proof (nonempty_of_length _ _ HI Hk) as HIn.
  unfold loop_body.
  rewrite (getitem_neg_1 _ HSn), (getitem_neg_1 _ HIn).
  cbn [bind].
  rewrite truediv_zero by exact Hpop.
  reflexivity.
Qed.

Lemma next_series_trajectory (c : series) (k : nat) :
  trajectory self c k -> trajectory self (next_series self c) (S k).
Proof.
  intros [HS HI HR Hk HS0 HI0 HR0 Hstep].
  constructor; unfold next_series; cbn [Susceptible Infected Recovered].
  - rewrite length_app; simpl; lia.
  - rewrite length_app; simpl; lia.
  - rewrite length_app; simpl; lia.
  - lia.
  - rewrite at_day_app_l by lia. exact HS0.
  - rewrite at_day_app_l by lia. exact HI0.
  - rewrite at_day_app_l by lia. exact HR0.
  - intros t Ht.
    destruct (Nat.eq_dec t k) as [->|Hne].
    + unfold recurrence, susceptible_update, infected_update, recovered_update,
        new_infected_at, new_recovered_at.
      cbn [Susceptible Infected Recovered].
      rewrite HI, HR, HS.
      rewrite !(at_day_app_l _ _ (k - 1)) by lia.
      rewrite !(at_day_app_at _ _ k) by assumption.
      repeat split; reflexivity.
    + assert (Hlt : (1 <= t < k)%nat) by lia.
      specialize (Hstep t Hlt).
      unfold recurrence, susceptible_update, infected_update, recovered_update,
        new_infected_at, new_recovered_at in *.
      cbn [Susceptible Infected Recovered].
      rewrite !(at_day_app_l _ _ t) by lia.
      rewrite !(at_day_app_l _ _ (t - 1)) by lia.
      exact Hstep.
Qed.

Lemma loop_returns (n : nat) :
  forall (c : series) (k : nat),
    ~ pop == 0 -> trajectory self c k ->
    exists c', loop self (adjusted_beta self) n c = Return c'
               /\ trajectory self c' (k + n).
Proof.
  induction n as [|n IH]; intros c k Hpop Hc.
  - exists c. split; [reflexivity|]. now rewrite Nat.add_0_r.
  - cbn [loop]. rewrite (loop_body_returns c k Hpop Hc). cbn [bind].
    destruct (IH _ _ Hpop (next_series_trajectory c k Hc)) as (c' & Hrun & Hc').
    exists c'. split; [exact Hrun|].
    now replace (k + S n)%nat with (S k + n)%nat by lia.
Qed.

Lemma loop_zero_population (n : nat) (c : series) (k : nat) :
  pop == 0 -> trajectory self c k ->
  loop self (adjusted_beta self) (S n) c = Raise ZeroDivisionError.
Proof.
  intros Hpop Hc. cbn [loop].
  now rewrite (loop_body_zero_population c k Hpop Hc).
Qed.

Lemma range_length (n : Z) : length (range n) = Z.to_nat n.
Proof. unfold range. now rewrite length_map, length_seq. Qed.

Lemma make_DataFrame_returns (day : list Z) (c : series) (k : nat) :
  length day = k -> trajectory self c k ->
  make_DataFrame day c = Return {| Day := day; columns := c |}.
Proof.
  intros Hd [HS HI HR _ _ _ _ _]. unfold make_DataFrame.
  rewrite Hd, HS, HI, HR, Nat.eqb_refl. reflexivity.
Qed.

Lemma generate_simulation_returns (days : Z) :
  ~ pop == 0 -> (1 <= days)%Z ->
  exists c, generate_simulation self days = Return {| Day := range days; columns := c |}
            /\ trajectory self c (Z.to_nat days).
Proof.
  intros Hpop Hdays. unfold generate_simulation.
  destruct (loop_returns (range_len 1 days) _ 1%nat Hpop initial_trajectory)
    as (c & Hrun & Hc).
  replace (1 + range_len 1 days)%nat with (Z.to_nat days) in Hc
    by (unfold range_len; lia).
  exists c. rewrite Hrun. cbn [bind]. split; [|exact Hc].
  apply (make_DataFrame_returns _ _ (Z.to_nat days)); [apply range_length | exact Hc].
Qed.

Lemma generate_simulation_one_day :
  generate_simulation self 1 =
  Return {| Day := [0%Z]; columns := initial_series self |}.
Proof. reflexivity. Qed.

Lemma generate_simulation_no_day (days : Z) :
  (days < 1)%Z -> generate_simulation self days = Raise ValueError.
Proof.
  intros Hdays. unfold generate_simulation, range_len, range.
  replace (Z.to_nat (days - 1)) with 0%nat by lia.
  replace (Z.to_nat days) with 0%nat by lia.
  reflexivity.
Qed.

Lemma generate_simulation_zero_population (days : Z) :
  pop == 0 -> (2 <= days)%Z ->
  generate_simulation self days = Raise ZeroDivisionError.
Proof.
  intros Hpop Hdays. unfold generate_simulation, range_len.
  destruct (Z.to_nat (days - 1)) as [|n] eqn:E; [lia|].
  now rewrite (loop_zero_population n _ 1%nat Hpop initial_trajectory).
Qed.

Lemma trajectory_conserved (c : series) (k : nat) :
  trajectory self c k ->
  forall t, (t < k)%nat ->
    at_day (Susceptible c) t + at_day (Infected c) t + at_day (Recovered c) t == pop.
Proof.
  intros [_ _ _ _ HS0 HI0 HR0 Hstep] t.
  induction t as [|t IH]; intros Ht.
  - rewrite HS0, HI0, HR0. unfold pop. ring.
  - assert (Hprev : (t < k)%nat) by lia. specialize (IH Hprev).
    destruct (Hstep (S t)) as (HS & HI & HR); [lia|].
    unfold susceptible_update, infected_update, recovered_update in HS, HI, HR.
    replace (S t - 1)%nat with t in * by lia.
    rewrite HS, HI, HR, <- IH. ring.
Qed.

End SimulatorFacts.


(** *** The recurrence of the loop *)

(** C1, as worded: on the run of the initial parameters over three days the
    infected count of day 2 is not the one obtained with the migration term
    read from [S[0]]. *)
Lemma lagged_recurrence_refuted :
  exists c, generate_simulation init 3 = Return {| Day := [0; 1; 2]%Z; columns := c |}
            /\ (1 <= 2)%nat /\ ~ lagged_recurrence init c 2.
Proof.
  eexists. split; [vm_compute; reflexivity|]. split; [lia|].
  unfold lagged_recurrence, infected_update, Qeq.
  vm_compute. discriminate.
Qed.

(** C1, amended: for a non-zero population and every day [t] with
    [1 <= t < days], the run returns columns in which
    [new_infected = adjusted_beta * S[t-1] * I[t-1] / population],
    [new_recovered = gamma * I[t-1]],
    [S[t] = S[t-1] - new_infected - migration_rate * S[t-1]],
    [I[t] = I[t-1] + new_infected - new_recovered + migration_rate * S[t-1]] and
    [R[t] = R[t-1] + new_recovered]: the migration term added to [I] reads
    the previous day's [S]; the source's [S[-2]] is evaluated after the
    append to [S].  For [t = 1] this is [S[0]], where the lagged reading
    agrees. *)
Theorem simulation_recurrence (self : AnimalDiseaseAI) (days : Z) (t : nat) :
  ~ population (params self) == 0 ->
  (1 <= t)%nat -> (Z.of_nat t < days)%Z ->
  exists c, generate_simulation self days = Return {| Day := range days; columns := c |}
            /\ recurrence self c t
            /\ (t = 1%nat -> lagged_recurrence self c t).
Proof.
  intros Hpop Ht Hdays.
  destruct (generate_simulation_returns self days Hpop) as (c & Hrun & Hc); [lia|].
  exists c. split; [exact Hrun|].
  assert (Hrec : recurrence self c t) by (apply (traj_step _ _ _ Hc); lia).
  split; [exact Hrec|].
  intros ->. unfold lagged_recurrence. apply Hrec.
Qed.

Lemma simulation_recurrence_witness :
  ~ population (params init) == 0 /\ (1 <= 2)%nat /\ (Z.of_nat 2 < 3)%Z /\
  exists c, generate_simulation init 3 = Return {| Day := range 3; columns := c |}
            /\ recurrence init c 2
            /\ (2%nat = 1%nat -> lagged_recurrence init c 2).
Proof.
  assert (H1 : ~ population (params init) == 0) by q_decide.
  assert (H2 : (1 <= 2)%nat) by lia.
  assert (H3 : (Z.of_nat 2 < 3)%Z) by lia.
  repeat split; try assumption.
  exact (simulation_recurrence init 3 2 H1 H2 H3).
Defined.

(** *** Parameter validation *)

(** C2, as worded: with 20 infected animals in a population of 10 the
    parameters are invalid, and the run returns a table. *)
Lemma invalid_parameters_accepted :
  invalid_parameters Inputs.overfull 1
  /\ generate_simulation Inputs.overfull 1 =
     Return {| Day := [0%Z];
               columns := {| Susceptible := [10 - 20]; Infected := [20]; Recovered := [0] |} |}
  /\ generate_simulation Inputs.overfull 1 <> Raise InvalidParameter.
Proof.
  split; [right; left; q_decide|].
  split; [reflexivity | discriminate].
Qed.

(** C2, amended: [generate_simulation] validates nothing and never fails
    with [InvalidParameter].  It produces no table exactly in two cases,
    both by an exception of the runtime: [days < 1] (the table constructor
    raises [ValueError], the columns holding one row for no day) and
    [population = 0] with [days >= 2] ([ZeroDivisionError]).  In every other
    case, a negative population and [initial_infected > population]
    included, it returns a table of [days] rows. *)
Theorem simulation_outcome (self : AnimalDiseaseAI) (days : Z) :
  generate_simulation self days <> Raise InvalidParameter
  /\ ((days < 1)%Z -> generate_simulation self days = Raise ValueError)
  /\ ((2 <= days)%Z -> population (params self) == 0 ->
      generate_simulation self days = Raise ZeroDivisionError)
  /\ ((1 <= days)%Z -> days = 1%Z \/ ~ population (params self) == 0 ->
      exists c, generate_simulation self days = Return {| Day := range days; columns := c |}
                /\ length (Susceptible c) = Z.to_nat days
                /\ length (Infected c) = Z.to_nat days
                /\ length (Recovered c) = Z.to_nat days).
Proof.
  assert (Hret : (1 <= days)%Z -> days = 1%Z \/ ~ population (params self) == 0 ->
      exists c, generate_simulation self days = Return {| Day := range days; columns := c |}
                /\ length (Susceptible c) = Z.to_nat days
                /\ length (Infected c) = Z.to_nat days
                /\ length (Recovered c) = Z.to_nat days).
  { intros Hdays [-> | Hpop].
    - exists (initial_series self). rewrite generate_simulation_one_day. now repeat split.
    - destruct (generate_simulation_returns self days Hpop Hdays) as (c & Hrun & Hc).
      exists c. split; [exact Hrun|]. destruct Hc. now repeat split. }
  split; [|split; [|split]].
  - destruct (Z_lt_le_dec days 1%Z) as [Hlt | Hge].
    + rewrite generate_simulation_no_day by exact Hlt. discriminate.
    + destruct (Qeq_dec (population (params self)) 0) as [Hz | Hnz].
      * destruct (Z.eq_dec days 1%Z) as [-> | Hne].
        -- rewrite generate_simulation_one_day. discriminate.
        -- rewrite generate_simulation_zero_population by (assumption || lia). discriminate.
      * destruct (Hret Hge (or_intror Hnz)) as (c & -> & _). discriminate.
  - apply generate_simulation_no_day.
  - intros Hdays Hpop. now apply generate_simulation_zero_population.
  - exact Hret.
Qed.

(** *** Conservation *)

(** C10: in exact arithmetic, for a non-zero population and [days >= 1],
    the run returns columns with [S[t] + I[t] + R[t] = population] on every
    day [t] of the series. *)
Theorem mass_conserved (self : AnimalDiseaseAI) (days : Z) (t : nat) :
  ~ population (params self) == 0 ->
  (1 <= days)%Z -> (Z.of_nat t < days)%Z ->
  exists c, generate_simulation self days = Return {| Day := range days; columns := c |}
            /\ at_day (Susceptible c) t + at_day (Infected c) t + at_day (Recovered c) t
               == population (params self).
Proof.
  intros Hpop Hdays Ht.
  destruct (generate_simulation_returns self days Hpop Hdays) as (c & Hrun & Hc).
  exists c. split; [exact Hrun|].
  apply (trajectory_conserved self c (Z.to_nat days) Hc). lia.
Qed.

Lemma mass_conserved_witness :
  ~ population (params init) == 0 /\ (1 <= 4)%Z /\ (Z.of_nat 3 < 4)%Z /\
  exists c, generate_simulation init 4 = Return {| Day := range 4; columns := c |}
            /\ at_day (Susceptible c) 3 + at_day (Infected c) 3 + at_day (Recovered c) 3
               == population (params init).
Proof.
  assert (H1 : ~ population (params init) == 0) by q_decide.
  assert (H2 : (1 <= 4)%Z) by lia.
  assert (H3 : (Z.of_nat 3 < 4)%Z) by lia.
  repeat split; try assumption.
  exact (mass_conserved init 4 3 H1 H2 H3).
Defined.

(** ** Comparisons, [min] and [max] *)

Section Comparisons.

Lemma ltb_lt (a b : Q) : ltb a b = true <-> a < b.
Proof.
  unfold ltb. rewrite negb_true_iff. split.
  - intros H. apply Qnot_le_lt. intros Hle. apply Qle_bool_iff in Hle. congruence.
  - intros H. destruct (Qle_bool b a) eqn:E; [|reflexivity].
    apply Qle_bool_iff in E. exfalso. exact (Qlt_not_le _ _ H E).
Qed.

Lemma ltb_ge (a b : Q) : ltb a b = false <-> b <= a.
Proof.
  unfold ltb. rewrite negb_false_iff. apply Qle_bool_iff.
Qed.

Lemma max_cases (a b : Q) : (a < b /\ max a b = b) \/ (b <= a /\ max a b = a).
Proof.
  unfold max, gtb. destruct (ltb a b) eqn:E.
  - left. split; [now apply ltb_lt | reflexivity].
  - right. split; [now apply ltb_ge | reflexivity].
Qed.

Lemma min_cases (a b : Q) : (b < a /\ min a b = b) \/ (a <= b /\ min a b = a).
Proof.
  unfold min. destruct (ltb b a) eqn:E.
  - left. split; [now apply ltb_lt | reflexivity].
  - right. split; [now apply ltb_ge | reflexivity].
Qed.

End Comparisons.

(** ** The intervention evaluator *)

Section InterventionFacts.

Lemma interventions_nonneg (measure : string) (iv : Intervention) :
  interventions !! measure = Some iv -> (0 <= cost iv)%Z /\ 0 <= beta_reduction iv.
Proof.
  intros H. apply elem_of_list_to_map_2 in H.
  rewrite !elem_of_cons, elem_of_nil in H.
  destruct H as [H|[H|[H|[H|[]]]]]; inversion H; subst; cbn; split; (lia || q_decide).
Qed.

Lemma cost_of_nonneg (measure : string) : (0 <= cost_of measure)%Z.
Proof.
  unfold cost_of. destruct (interventions !! measure) eqn:E; [|lia].
  now apply (interventions_nonneg measure).
Qed.

Lemma reduction_of_nonneg (measure : string) : 0 <= reduction_of measure.
Proof.
  unfold reduction_of. destruct (interventions !! measure) eqn:E; [|q_decide].
  now apply (interventions_nonneg measure).
Qed.

Lemma add_measure_fst (acc : Z * Q) (measure : string) :
  fst (add_measure acc measure) = (fst acc + cost_of measure)%Z.
Proof.
  unfold add_measure, cost_of. destruct (interventions !! measure); cbn; lia.
Qed.

Lemma add_measure_snd (acc : Z * Q) (measure : string) :
  snd (add_measure acc measure) == snd acc + reduction_of measure.
Proof.
  unfold add_measure, reduction_of. destruct (interventions !! measure); cbn; ring.
Qed.

(** The totals after the remaining measures differ from the totals so far
    by amounts that depend on the remaining measures only. *)
Lemma fold_add_measure (l : list string) :
  exists (c : Z) (b : Q),
    (0 <= c)%Z /\ 0 <= b /\
    forall acc, fst (fold_left add_measure l acc) = (fst acc + c)%Z
                /\ snd (fold_left add_measure l acc) == snd acc + b.
Proof.
  induction l as [|m l (c & b & Hc & Hb & IH)].
  - exists 0%Z, 0. repeat split; [lia | q_decide | cbn; lia | cbn; ring].
  - exists (cost_of m + c)%Z, (reduction_of m + b).
    pose proof (cost_of_nonneg m). pose proof (reduction_of_nonneg m).
    repeat split; [lia | lra | |].
    + cbn [fold_left]. destruct (IH (add_measure acc m)) as [-> _].
      rewrite add_measure_fst. lia.
    + cbn [fold_left]. destruct (IH (add_measure acc m)) as [_ ->].
      rewrite add_measure_snd. ring.
Qed.

Lemma totals_insert (sel1 sel2 : list string) (measure : string) :
  (fst (totals (sel1 ++ sel2)) <= fst (totals (sel1 ++ measure :: sel2)))%Z
  /\ snd (totals (sel1 ++ sel2)) <= snd (totals (sel1 ++ measure :: sel2)).
Proof.
  unfold totals. rewrite !fold_left_app. cbn [fold_left].
  destruct (fold_add_measure sel2) as (c & b & _ & _ & H).
  set (acc := fold_left add_measure sel1 (0%Z, 0)).
  destruct (H acc) as [-> ->]. destruct (H (add_measure acc measure)) as [-> ->].
  rewrite add_measure_fst, add_measure_snd.
  pose proof (cost_of_nonneg measure). pose proof (reduction_of_nonneg measure).
  split; [lia | lra].
Qed.

Variable self : AnimalDiseaseAI.

Let b := beta (params self).
Let g := gamma (params self).

Lemma quotient_nonzero (x y : Q) : ~ x == 0 -> ~ y == 0 -> ~ x / y == 0.
Proof.
  intros Hx Hy H. apply Hx.
  assert (E : x == x / y * y) by (field; exact Hy).
  rewrite E, H. ring.
Qed.

(** The value returned when no division fails. *)
Lemma evaluate_interventions_returns (selected_measures : list string) :
  ~ b == 0 -> ~ g == 0 ->
  evaluate_interventions self selected_measures =
  Return {| total_cost := fst (totals selected_measures);
            r0_reduction :=
              (b / g - max 0.01 (b * (1 - snd (totals selected_measures))) / g) / (b / g) * 100;
            new_r0 := max 0.01 (b * (1 - snd (totals selected_measures))) / g;
            measures := selected_measures |}.
Proof.
  intros Hb Hg. unfold evaluate_interventions. fold b g.
  rewrite !(truediv_nonzero _ g) by exact Hg. cbn [bind].
  rewrite truediv_nonzero by (apply quotient_nonzero; assumption).
  reflexivity.
Qed.

Lemma reduction_closed_form (nb : Q) :
  ~ b == 0 -> ~ g == 0 ->
  (b / g - nb / g) / (b / g) * 100 == 100 - 100 * (nb * / b).
Proof. intros Hb Hg. field. split; assumption. Qed.

Lemma floor_antitone_pos (t1 t2 : Q) :
  0 < b -> t1 <= t2 -> max 0.01 (b * (1 - t2)) <= max 0.01 (b * (1 - t1)).
Proof.
  intros Hb Ht.
  destruct (max_cases 0.01 (b * (1 - t1))) as [[H1 ->] | [H1 ->]];
    destruct (max_cases 0.01 (b * (1 - t2))) as [[H2 ->] | [H2 ->]]; nra.
Qed.

Lemma floor_monotone_neg (t1 t2 : Q) :
  b < 0 -> t1 <= t2 -> max 0.01 (b * (1 - t1)) <= max 0.01 (b * (1 - t2)).
Proof.
  intros Hb Ht.
  destruct (max_cases 0.01 (b * (1 - t1))) as [[H1 ->] | [H1 ->]];
    destruct (max_cases 0.01 (b * (1 - t2))) as [[H2 ->] | [H2 ->]]; nra.
Qed.

Lemma floor_monotone (t1 t2 : Q) :
  ~ b == 0 -> t1 <= t2 ->
  max 0.01 (b * (1 - t2)) * / b <= max 0.01 (b * (1 - t1)) * / b.
Proof.
  intros Hb Ht.
  destruct (Q_dec b 0) as [[Hneg | Hpos] | Hz]; [| |contradiction].
  - assert (Hinv : 0 < / (- b)) by (apply Qinv_lt_0_compat; lra).
    assert (E : / b == - / (- b)) by (field; exact Hb).
    rewrite !E.
    pose proof (floor_monotone_neg t1 t2 Hneg Ht) as Hn.
    set (n1 := max 0.01 (b * (1 - t1))) in *.
    set (n2 := max 0.01 (b * (1 - t2))) in *.
    set (ib := / (- b)) in *. nra.
  - assert (Hinv : 0 < / b) by (apply Qinv_lt_0_compat; exact Hpos).
    pose proof (floor_antitone_pos t1 t2 Hpos Ht) as Hn.
    apply Qmult_le_compat_r; [exact Hn | lra].
Qed.

End InterventionFacts.

(** *** Division by [gamma] *)

(** C3, as worded: with [gamma = 0] the evaluation of one measure ends in
    the [ZeroDivisionError] of [beta / gamma], not in [InvalidParameter]. *)
Lemma zero_gamma_not_guarded :
  gamma (params Inputs.no_recovery) == 0
  /\ evaluate_interventions Inputs.no_recovery ["vaccination"] = Raise ZeroDivisionError
  /\ evaluate_interventions Inputs.no_recovery ["vaccination"] <> Raise InvalidParameter.
Proof.
  split; [q_decide|]. split; [reflexivity | discriminate].
Qed.

(** C3, amended: [evaluate_interventions] has no guard on [gamma]; for
    every selection, when [gamma = 0] the division [beta / gamma] is
    performed and raises [ZeroDivisionError].  The division by zero is not
    masked, and no [InvalidParameter] failure is produced. *)
Theorem zero_gamma_raises (self : AnimalDiseaseAI) (selected_measures : list string) :
  gamma (params self) == 0 ->
  evaluate_interventions self selected_measures = Raise ZeroDivisionError.
Proof.
  intros Hg. unfold evaluate_interventions.
  now rewrite (truediv_zero _ _ Hg).
Qed.

Lemma zero_gamma_raises_witness :
  gamma (params Inputs.no_recovery) == 0
  /\ evaluate_interventions Inputs.no_recovery ["isolation"; "sanitation"]
     = Raise ZeroDivisionError.
Proof.
  assert (H : gamma (params Inputs.no_recovery) == 0) by q_decide.
  split; [exact H|].
  exact (zero_gamma_raises Inputs.no_recovery ["isolation"; "sanitation"] H).
Defined.

(** *** The empty selection *)

(** C5, as worded: with [beta = 0.005] and [gamma = 0.1 > 0] the empty
    selection costs nothing, but the floor [max(0.01, ...)] doubles [beta]
    and the reported reduction is -100 percent. *)
Lemma empty_selection_below_floor :
  0 < gamma (params Inputs.tiny_beta)
  /\ exists ev, evaluate_interventions Inputs.tiny_beta [] = Return ev
               /\ total_cost ev = 0%Z
               /\ r0_reduction ev == -100
               /\ ~ r0_reduction ev == 0.
Proof.
  split; [q_decide|]. eexists. split; [vm_compute; reflexivity|].
  cbn [total_cost r0_reduction]. split; [reflexivity|]. q_decide.
Qed.

(** C5, amended: for every [beta >= 0.01] (the floor of [new_beta]) and
    every [gamma > 0], the empty selection returns [total_cost = 0] and
    [r0_reduction] equal to 0 percent. *)
Theorem empty_selection (self : AnimalDiseaseAI) :
  0.01 <= beta (params self) -> 0 < gamma (params self) ->
  exists ev, evaluate_interventions self [] = Return ev
             /\ total_cost ev = 0%Z
             /\ r0_reduction ev == 0.
Proof.
  intros Hb Hg.
  assert (Hb0 : ~ beta (params self) == 0) by lra.
  assert (Hg0 : ~ gamma (params self) == 0) by lra.
  eexists. split; [apply evaluate_interventions_returns; assumption|].
  cbn [total_cost r0_reduction totals fold_left fst snd].
  split; [reflexivity|].
  rewrite reduction_closed_form by assumption.
  destruct (max_cases 0.01 (beta (params self) * (1 - 0))) as [[H ->] | [H ->]].
  - field. exact Hb0.
  - assert (E : beta (params self) == 0.01) by lra.
    rewrite E. q_decide.
Qed.

Lemma empty_selection_witness :
  0.01 <= beta (params init) /\ 0 < gamma (params init)
  /\ exists ev, evaluate_interventions init [] = Return ev
                /\ total_cost ev = 0%Z
                /\ r0_reduction ev == 0.
Proof.
  assert (H1 : 0.01 <= beta (params init)) by q_decide.
  assert (H2 : 0 < gamma (params init)) by q_decide.
  repeat split; try assumption.
  exact (empty_selection init H1 H2).
Defined.

(** *** Monotonicity of the evaluation *)

(** C6: with [beta] and [gamma] fixed, [gamma > 0] and [beta] different
    from 0 (in particular [beta > 0]), adding a measure anywhere in a
    selection gives an evaluation whose [total_cost] and whose
    [r0_reduction] are not smaller.  Both evaluations return. *)
Theorem evaluate_interventions_monotone (self : AnimalDiseaseAI)
    (sel1 sel2 : list string) (measure : string) :
  ~ beta (params self) == 0 -> 0 < gamma (params self) ->
  exists ev1 ev2,
    evaluate_interventions self (sel1 ++ sel2) = Return ev1
    /\ evaluate_interventions self (sel1 ++ measure :: sel2) = Return ev2
    /\ (total_cost ev1 <= total_cost ev2)%Z
    /\ r0_reduction ev1 <= r0_reduction ev2.
Proof.
  intros Hb Hg.
  assert (Hg0 : ~ gamma (params self) == 0) by lra.
  destruct (totals_insert sel1 sel2 measure) as [Hcost Hred].
  do 2 eexists.
  split; [apply evaluate_interventions_returns; assumption|].
  split; [apply evaluate_interventions_returns; assumption|].
  cbn [total_cost r0_reduction]. split; [exact Hcost|].
  rewrite !reduction_closed_form by assumption.
  pose proof (floor_monotone self _ _ Hb Hred). lra.
Qed.

Lemma evaluate_interventions_monotone_witness :
  ~ beta (params init) == 0 /\ 0 < gamma (params init)
  /\ exists ev1 ev2,
       evaluate_interventions init (["sanitation"] ++ ["isolation"]) = Return ev1
       /\ evaluate_interventions init (["sanitation"] ++ "vaccination" :: ["isolation"])
          = Return ev2
       /\ (total_cost ev1 <= total_cost ev2)%Z
       /\ r0_reduction ev1 <= r0_reduction ev2.
Proof.
  assert (H1 : ~ beta (params init) == 0) by q_decide.
  assert (H2 : 0 < gamma (params init)) by q_decide.
  repeat split; try assumption.
  exact (evaluate_interventions_monotone init ["sanitation"] ["isolation"] "vaccination" H1 H2).
Defined.

(** ** The risk score *)

Section RiskFacts.

Lemma fold_plus_acc (l : list Q) (a : Q) :
  fold_left Qplus l a == a + sum l.
Proof.
  unfold sum. revert a. induction l as [|x l IH]; intros a; cbn [fold_left].
  - ring.
  - rewrite (IH (a + x)), (IH (0 + x)). ring.
Qed.

Lemma sum_cons (x : Q) (l : list Q) : sum (x :: l) == x + sum l.
Proof. unfold sum at 1. cbn [fold_left]. rewrite fold_plus_acc. ring. Qed.

Lemma sum_app (l1 l2 : list Q) : sum (l1 ++ l2) == sum l1 + sum l2.
Proof.
  unfold sum at 1. rewrite fold_left_app, fold_plus_acc. reflexivity.
Qed.

Lemma object_score_app (l1 l2 : list Detection.t) :
  object_score (l1 ++ l2) == object_score l1 + object_score l2.
Proof.
  unfold object_score, risk_objects.
  now rewrite List.filter_app, List.map_app, sum_app.
Qed.

Lemma feature_score_app (l1 l2 : list Classification.t) :
  feature_score (l1 ++ l2) == feature_score l1 + feature_score l2.
Proof.
  unfold feature_score, risk_features.
  now rewrite List.filter_app, List.map_app, sum_app.
Qed.

Lemma object_score_cons (obj : Detection.t) (l : list Detection.t) :
  object_score (obj :: l) ==
  (if is_risk_object obj then Detection.confidence obj * 0.5 else 0) + object_score l.
Proof.
  unfold object_score, risk_objects. cbn [List.filter].
  destruct (is_risk_object obj); cbn [List.map]; [apply sum_cons | ring].
Qed.

Lemma feature_score_cons (feat : Classification.t) (l : list Classification.t) :
  feature_score (feat :: l) ==
  (if is_risk_feature feat then Classification.confidence feat * 0.2 else 0)
  + feature_score l.
Proof.
  unfold feature_score, risk_features. cbn [List.filter].
  destruct (is_risk_feature feat); cbn [List.map]; [apply sum_cons | ring].
Qed.

Lemma raised_object_term (obj : Detection.t) (c : Q) :
  Detection.confidence obj <= c ->
  (if is_risk_object obj then Detection.confidence obj * 0.5 else 0) <=
  (if is_risk_object {| Detection.name := Detection.name obj; Detection.confidence := c |}
   then c * 0.5 else 0).
Proof.
  intros Hc. unfold is_risk_object. cbn [Detection.name Detection.confidence].
  destruct (bool_decide (Detection.name obj ∈ high_risk_objects feces_config));
    cbn [andb]; [|lra].
  unfold gtb.
  destruct (ltb 0.5 (Detection.confidence obj)) eqn:E1;
    destruct (ltb 0.5 c) eqn:E2;
    try apply ltb_lt in E1; try apply ltb_lt in E2;
    try apply ltb_ge in E1; try apply ltb_ge in E2; lra.
Qed.

Lemma raised_feature_term (feat : Classification.t) (c : Q) :
  Classification.confidence feat <= c ->
  (if is_risk_feature feat then Classification.confidence feat * 0.2 else 0) <=
  (if is_risk_feature {| Classification.label := Classification.label feat;
                         Classification.confidence := c |}
   then c * 0.2 else 0).
Proof.
  intros Hc. unfold is_risk_feature. cbn [Classification.label Classification.confidence].
  destruct (existsb _ (high_risk_features feces_config)); cbn [andb]; [|lra].
  unfold gtb.
  destruct (ltb 50 (Classification.confidence feat)) eqn:E1;
    destruct (ltb 50 c) eqn:E2;
    try apply ltb_lt in E1; try apply ltb_lt in E2;
    try apply ltb_ge in E1; try apply ltb_ge in E2; lra.
Qed.

Lemma total_risk_scores (detection : list Detection.t)
    (classification : list Classification.t) (h_mean s_mean : Q) :
  total_risk detection classification h_mean s_mean =
  object_score detection + feature_score classification
  + avian_flu_risk h_mean s_mean
  + (if ltb h_mean 50 then 0.3 else 0)
  + (if gtb s_mean 0.6 then 0.3 else 0).
Proof. reflexivity. Qed.

Lemma raised_scores (x y : inputs) :
  raised x y ->
  object_score (fst x) <= object_score (fst y)
  /\ feature_score (snd x) <= feature_score (snd y).
Proof.
  intros [before after obj c cls Hc | det before after feat c Hc]; cbn [fst snd].
  - split; [|lra].
    rewrite !object_score_app, !object_score_cons.
    cbn [Detection.confidence].
    pose proof (raised_object_term obj c Hc). lra.
  - split; [lra|].
    rewrite !feature_score_app, !feature_score_cons.
    cbn [Classification.confidence].
    pose proof (raised_feature_term feat c Hc). lra.
Qed.

End RiskFacts.

(** *** Scenario B *)

(** Scenario B in exact arithmetic (its evaluation in binary64 comes
    further below): for [hue_mean = 35],
    [saturation_mean = 0.7] and no detection and
    no classification, in exact arithmetic, the inner sum is
    [(40-35)/10 + (0.7-0.65)/0.1 = 1], [avian_flu_risk = 0.3 * min(1, 1) = 0.3],
    [total_risk = 0.3 + 0.3 + 0.3 = 0.9] with both bonuses granted, the
    threshold is 0.65, and the verdict is [HighRisk]. *)
Theorem scenario_B (v_mean : Q) :
  (40 - 35) / 10 + (0.7 - 0.65) / 0.1 == 1
  /\ avian_flu_risk 35 0.7 == 0.3 * min ((40 - 35) / 10 + (0.7 - 0.65) / 0.1) 1
  /\ avian_flu_risk 35 0.7 == 0.3
  /\ ltb 35 50 = true /\ gtb 0.7 0.6 = true
  /\ total_risk [] [] 35 0.7 == 0.3 + 0.3 + 0.3
  /\ total_risk [] [] 35 0.7 == 0.9
  /\ threshold [] = 0.65
  /\ risk_level (analyze_feces [] [] 35 0.7 v_mean) = HighRisk
  /\ probability (analyze_feces [] [] 35 0.7 v_mean) == 0.9.
Proof.
  repeat split; vm_compute; reflexivity.
Qed.

(** *** Monotonicity of the score *)

(** C7: raising the confidence of one detection item or of one
    classification item, every other input being the same, does not decrease
    [total_risk]. *)
Theorem total_risk_monotone (x y : inputs) (h_mean s_mean : Q) :
  raised x y ->
  total_risk (fst x) (snd x) h_mean s_mean <= total_risk (fst y) (snd y) h_mean s_mean.
Proof.
  intros H. destruct (raised_scores x y H) as [Ho Hf].
  rewrite !total_risk_scores. lra.
Qed.

Lemma total_risk_monotone_witness :
  raised ([] ++ {| Detection.name := "duck"; Detection.confidence := 0.4 |} :: [], [])
         ([] ++ {| Detection.name := "duck"; Detection.confidence := 0.8 |} :: [], [])
  /\ total_risk [{| Detection.name := "duck"; Detection.confidence := 0.4 |}] [] 45 0.5
     <= total_risk [{| Detection.name := "duck"; Detection.confidence := 0.8 |}] [] 45 0.5.
Proof.
  assert (H : raised
            ([] ++ {| Detection.name := "duck"; Detection.confidence := 0.4 |} :: [], [])
            ([] ++ {| Detection.name := "duck"; Detection.confidence := 0.8 |} :: [], [])).
  { apply (raised_detection [] [] {| Detection.name := "duck"; Detection.confidence := 0.4 |}).
    cbn. q_decide. }
  split; [exact H|].
  exact (total_risk_monotone _ _ 45 0.5 H).
Defined.

(** ** The advisory client *)

Section AdvisoryFacts.

Variable service : nat -> outcome string.
Variable str_params : Params -> string.
Variable str_env_factors : EnvFactors -> string.

Lemma backoff_from_succ (r : Z) (f : nat) :
  backoff_from r (S f) = (2 ^ (r + 1))%Z :: backoff_from (r + 1) f.
Proof.
  unfold backoff_from. cbn [seq List.map]. f_equal.
  rewrite <- seq_shift, List.map_map. apply List.map_ext.
  intros k. f_equal. lia.
Qed.

(** The retry loop for any number [n] of allowed requests. *)
Lemma retry_loop_spec (n : nat) :
  forall (r : Z) (w : world),
  exists f, (f <= n)%nat
    /\ (forall j, (j < f)%nat -> service (posts w + j)%nat = Raise RequestException)
    /\ sleeps (snd (retry_loop service n r w)) = sleeps w ++ backoff_from r f
    /\ ends_after service n w f (retry_loop service n r w).
Proof.
  induction n as [|n IH]; intros r w.
  - exists 0%nat. unfold ends_after. cbn. rewrite app_nil_r, Nat.add_0_r.
    repeat split; intros; lia.
  - cbn [retry_loop].
    destruct (service (posts w)) as [content | e] eqn:E.
    + exists 0%nat. unfold ends_after. cbn. rewrite app_nil_r, !Nat.add_0_r, E.
      repeat split; intros; lia.
    + destruct e;
        try (exists 0%nat; unfold ends_after; cbn;
             rewrite app_nil_r, !Nat.add_0_r, E; repeat split; intros; lia).
      destruct (IH (r + 1)%Z (sleep (2 ^ (r + 1)) (post w)))
        as (f & Hf & Hfail & Hsleep & Hend_n & Hend_lt).
      cbn [posts sleeps sleep post] in Hfail, Hsleep, Hend_n, Hend_lt.
      exists (S f). split; [lia|]. split; [|split; [|split]].
      * intros [|j] Hj; [now rewrite Nat.add_0_r|].
        replace (posts w + S j)%nat with (S (posts w) + j)%nat by lia.
        apply Hfail. lia.
      * rewrite Hsleep, backoff_from_succ, <- app_assoc. reflexivity.
      * intros Hn. destruct Hend_n as [-> ->]; [lia|]. split; [reflexivity | lia].
      * intros Hn. destruct Hend_lt as [-> Hcase]; [lia|].
        split; [lia|].
        now replace (posts w + S f)%nat with (S (posts w) + f)%nat by lia.
Qed.

(** The number of failed requests of a call is determined by the service. *)
Lemma failed_requests_unique (n : nat) (w : world) (f f' : nat)
    (res : outcome (option string) * world) :
  (f <= n)%nat -> (f' <= n)%nat ->
  (forall j, (j < f)%nat -> service (posts w + j)%nat = Raise RequestException) ->
  ends_after service n w f res ->
  (forall j, (j < f')%nat -> service (posts w + j)%nat = Raise RequestException) ->
  (f' = n \/ service (posts w + f')%nat <> Raise RequestException) ->
  f = f'.
Proof.
  intros Hf Hf' Hfail [_ Hend] Hfail' Hstop.
  destruct (Nat.lt_trichotomy f f') as [Hlt | [Heq | Hgt]]; [|exact Heq|].
  - destruct Hend as [_ Hcase]; [lia|].
    rewrite (Hfail' f Hlt) in Hcase. contradiction.
  - destruct Hstop as [-> | Hstop]; [lia|].
    exfalso. apply Hstop. now apply Hfail.
Qed.

Lemma truthy_nonempty (text : string) : truthy (Some text) = true <-> text <> ""%string.
Proof.
  cbn [truthy]. rewrite negb_true_iff. apply String.eqb_neq.
Qed.


(** *** Retries and backoff *)

(** The retry client in terms of the exception that leaves the [try]
    block (the shape of the answer is related to it further below): a call
    with the default [max_retries = 3]
    issues at most 3 requests; its waits are [2^1, ..., 2^f], one after each
    of its [f <= 3] failed requests ([2, 4, 8] for three); when, after [f < 3]
    failed requests, the answer lacks a key ([KeyError]), the call returns
    [None] at once, with no further request and no further wait; and when
    all three requests fail it returns [None]. *)
Theorem retry_client (self : AnimalDiseaseAI) (query : string) (w : world) :
  let res := ai_analysis_with_retry service self query 3 w in
  (posts (snd res) <= posts w + 3)%nat
  /\ (exists f, (f <= 3)%nat
        /\ (forall j, (j < f)%nat -> service (posts w + j)%nat = Raise RequestException)
        /\ sleeps (snd res) = sleeps w ++ backoff f
        /\ ends_after service 3 w f res)
  /\ backoff 3 = [2; 4; 8]%Z
  /\ (forall f, (f < 3)%nat ->
        (forall j, (j < f)%nat -> service (posts w + j)%nat = Raise RequestException) ->
        service (posts w + f)%nat = Raise KeyError ->
        fst res = Return None
        /\ posts (snd res) = (posts w + f + 1)%nat
        /\ sleeps (snd res) = sleeps w ++ backoff f)
  /\ ((forall j, (j < 3)%nat -> service (posts w + j)%nat = Raise RequestException) ->
        fst res = Return None
        /\ posts (snd res) = (posts w + 3)%nat
        /\ sleeps (snd res) = sleeps w ++ [2; 4; 8]%Z).
Proof.
  intros res.
  assert (Hres : res = retry_loop service 3 0%Z w) by reflexivity.
  clearbody res.
  destruct (retry_loop_spec 3 0%Z w) as (f0 & Hf0 & Hfail & Hsleep & Hend).
  rewrite <- Hres in Hsleep, Hend. fold (backoff f0) in Hsleep.
  split; [|split; [|split; [|split]]].
  - destruct Hend as [Hall Hsome].
    destruct (Nat.eq_dec f0 3%nat) as [E | E].
    + destruct (Hall E) as [_ ->]. lia.
    + destruct Hsome as [-> _]; lia.
  - exists f0. split; [exact Hf0|]. split; [exact Hfail|]. split; [exact Hsleep | exact Hend].
  - reflexivity.
  - intros f Hf Hfail' Hkey.
    assert (E : f0 = f).
    { apply (failed_requests_unique 3 w f0 f res); try assumption; try lia.
      right. rewrite Hkey. discriminate. }
    subst f0. destruct Hend as [_ Hsome].
    destruct Hsome as [Hposts Hcase]; [exact Hf|].
    rewrite Hkey in Hcase. now repeat split.
  - intros Hfail'.
    assert (E : f0 = 3%nat).
    { apply (failed_requests_unique 3 w f0 3 res); try assumption; try lia. }
    subst f0. destruct Hend as [Hall _].
    destruct Hall as [Hnone Hposts]; [reflexivity|].
    now repeat split.
Qed.

(** *** The cache *)


End AdvisoryFacts.

(** ** The properties at concrete inputs *)

(** A negative population over three days: the run returns three rows. *)
Lemma simulation_outcome_witness :
  exists c, generate_simulation Inputs.negative_population 3
            = Return {| Day := range 3; columns := c |}
            /\ length (Susceptible c) = 3%nat
            /\ length (Infected c) = 3%nat
            /\ length (Recovered c) = 3%nat.
Proof.
  destruct (simulation_outcome Inputs.negative_population 3) as (_ & _ & _ & H).
  apply H; [lia | right; q_decide].
Defined.

(** One failed request, then an answer without the key: two requests, one
    wait of 2, and [None]. *)
Lemma retry_client_witness :
  let res := ai_analysis_with_retry Inputs.flaky init "q" 3 Inputs.fresh in
  fst res = Return None /\ posts (snd res) = 2%nat /\ sleeps (snd res) = [2%Z].
Proof.
  destruct (retry_client Inputs.flaky init "q" Inputs.fresh) as (_ & _ & _ & Hkey & _).
  apply (Hkey 1%nat); [lia | | reflexivity].
  intros [|j] Hj; [reflexivity | lia].
Defined.

(** The service down: three requests, the waits 2, 4, 8, and [None]. *)
Example retry_exhausted :
  ai_analysis_with_retry Inputs.down init "q" 3 Inputs.fresh
  = (Return None, {| posts := 3; sleeps := [2; 4; 8]%Z |}).
Proof. reflexivity. Qed.


(** A text that fails the test [if result:], the empty text, counts as a
    failed fetch: it is returned, not cached, and the second request asks
    the service again. *)
Example empty_text_not_cached :
  let silent := fun _ : nat => Return ""%string in
  let first := ai_analysis silent Inputs.no_str Inputs.no_str init "q" Inputs.fresh in
  let second := ai_analysis silent Inputs.no_str Inputs.no_str
                  (fst (snd first)) "q" (snd (snd first)) in
  fst first = Return (Some ""%string)
  /\ succeeded (fst first) = false
  /\ analysis_cache (fst (snd first)) = analysis_cache init
  /\ posts (snd (snd second)) = 2%nat.
Proof. repeat split. Qed.

(** * Further properties *)

(** ** Runs of different lengths *)

Section Extension.

Variable self : AnimalDiseaseAI.

Lemma loop_app (n1 n2 : nat) (ab : Q) :
  forall st, loop self ab (n1 + n2) st
             = bind (loop self ab n1 st) (loop self ab n2).
Proof.
  induction n1 as [|n1 IH]; intros st; [reflexivity|].
  cbn [loop Nat.add]. destruct (loop_body self ab st) as [st'|e]; [|reflexivity].
  cbn [bind]. apply IH.
Qed.

Lemma loop_lengths (n : nat) :
  forall (c c' : series) (k : nat),
    ~ population (params self) == 0 -> trajectory self c k ->
    loop self (adjusted_beta self) n c = Return c' ->
    trajectory self c' (k + n)
    /\ take k (Susceptible c') = Susceptible c
    /\ take k (Infected c') = Infected c
    /\ take k (Recovered c') = Recovered c.
Proof.
  induction n as [|n IH]; intros c c' k Hpop Hc Hrun.
  - injection Hrun as <-. rewrite Nat.add_0_r.
    destruct Hc as [HS HI HR].
    split; [now constructor|].
    rewrite !take_ge by lia. now repeat split.
  - cbn [loop] in Hrun. rewrite (loop_body_returns self c k Hpop Hc) in Hrun.
    cbn [bind] in Hrun.
    destruct (IH _ _ _ Hpop (next_series_trajectory self c k Hc) Hrun)
      as (Hc' & HS' & HI' & HR').
    split; [now replace (k + S n)%nat with (S k + n)%nat by lia|].
    destruct Hc as [HS HI HR _ _ _ _ _].
    assert (Hmin : Nat.min k (S k) = k) by lia.
    repeat split.
    + rewrite <- Hmin, <- take_take, HS'. cbn [next_series Susceptible].
      now apply take_app_length'.
    + rewrite <- Hmin, <- take_take, HI'. cbn [next_series Infected].
      now apply take_app_length'.
    + rewrite <- Hmin, <- take_take, HR'. cbn [next_series Recovered].
      now apply take_app_length'.
Qed.

Lemma range_take (d1 d2 : Z) :
  (0 <= d1 <= d2)%Z -> take (Z.to_nat d1) (range d2) = range d1.
Proof.
  intros H. unfold range.
  rewrite firstn_map. f_equal.
  replace (Z.to_nat d2) with (Z.to_nat d1 + (Z.to_nat d2 - Z.to_nat d1))%nat by lia.
  rewrite seq_app. rewrite take_app_length'; [reflexivity | now rewrite length_seq].
Qed.

End Extension.

(** X1: asking for more days extends the table and changes no earlier row:
    for a non-zero population and [1 <= d1 <= d2], both runs return, and the
    first [d1] rows of the run over [d2] days are the run over [d1] days. *)
Theorem simulation_prefix (self : AnimalDiseaseAI) (d1 d2 : Z) :
  ~ population (params self) == 0 -> (1 <= d1)%Z -> (d1 <= d2)%Z ->
  exists c1 c2,
    generate_simulation self d1 = Return {| Day := range d1; columns := c1 |}
    /\ generate_simulation self d2 = Return {| Day := range d2; columns := c2 |}
    /\ take (Z.to_nat d1) (range d2) = range d1
    /\ take (Z.to_nat d1) (Susceptible c2) = Susceptible c1
    /\ take (Z.to_nat d1) (Infected c2) = Infected c1
    /\ take (Z.to_nat d1) (Recovered c2) = Recovered c1.
Proof.
  intros Hpop H1 H12.
  destruct (loop_returns self (range_len 1 d1) _ 1%nat Hpop (initial_trajectory self))
    as (c1 & Hrun1 & Hc1).
  replace (1 + range_len 1 d1)%nat with (Z.to_nat d1) in Hc1 by (unfold range_len; lia).
  destruct (loop_returns self (range_len 1 d2 - range_len 1 d1) c1 _ Hpop Hc1)
    as (c2 & Hrun2 & Hc2).
  destruct (loop_lengths self _ _ _ _ Hpop Hc1 Hrun2) as (_ & HS & HI & HR).
  replace (Z.to_nat d1 + (range_len 1 d2 - range_len 1 d1))%nat with (Z.to_nat d2) in Hc2
    by (unfold range_len; lia).
  assert (Hrun12 : loop self (adjusted_beta self) (range_len 1 d2) (initial_series self)
                   = Return c2).
  { replace (range_len 1 d2)
      with (range_len 1 d1 + (range_len 1 d2 - range_len 1 d1))%nat
      by (unfold range_len; lia).
    rewrite loop_app, Hrun1. exact Hrun2. }
  exists c1, c2. unfold generate_simulation. rewrite Hrun1, Hrun12. cbn [bind].
  rewrite (make_DataFrame_returns self _ _ (Z.to_nat d1)) by (apply range_length || exact Hc1).
  rewrite (make_DataFrame_returns self _ _ (Z.to_nat d2)) by (apply range_length || exact Hc2).
  repeat split; try assumption. apply range_take. lia.
Qed.

Lemma simulation_prefix_witness :
  exists c1 c2,
    generate_simulation init 2 = Return {| Day := range 2; columns := c1 |}
    /\ generate_simulation init 4 = Return {| Day := range 4; columns := c2 |}
    /\ take (Z.to_nat 2) (range 4) = range 2
    /\ take (Z.to_nat 2) (Susceptible c2) = Susceptible c1
    /\ take (Z.to_nat 2) (Infected c2) = Infected c1
    /\ take (Z.to_nat 2) (Recovered c2) = Recovered c1.
Proof.
  apply (simulation_prefix init 2 4); [q_decide | lia | lia].
Defined.

(** ** Bounds on the compartments *)

Section Bounds.

Import Notions.

Lemma new_infected_bounds (ab pop s i : Q) :
  0 < pop -> 0 <= ab -> 0 <= s -> 0 <= i -> i <= pop ->
  0 <= ab * s * i / pop /\ ab * s * i / pop <= ab * s.
Proof.
  intros Hpop Hab Hs Hi Hip.
  assert (Hq0 : 0 <= i / pop) by (apply Qle_shift_div_l; [exact Hpop | lra]).
  assert (Hq1 : i / pop <= 1) by (apply Qle_shift_div_r; [exact Hpop | lra]).
  assert (E : ab * s * i / pop == ab * s * (i / pop)) by (field; lra).
  rewrite E. set (q := i / pop) in *.
  assert (Hp : 0 <= ab * s) by nra.
  set (p := ab * s) in *. split; nra.
Qed.

Variable self : AnimalDiseaseAI.
Hypothesis Htame : tame self.

Lemma tame_nonzero : ~ population (params self) == 0.
Proof. destruct Htame as [Hpop _ _ _ _ _]. lra. Qed.

Lemma trajectory_bounded (c : series) (k : nat) :
  trajectory self c k ->
  forall t, (t < k)%nat ->
    0 <= at_day (Susceptible c) t /\ 0 <= at_day (Infected c) t
    /\ 0 <= at_day (Recovered c) t.
Proof.
  intros Hc t.
  destruct Htame as [Hpop [Hi0 Hi1] [Hg0 Hg1] Hm Hab Hrate].
  induction t as [|t IH]; intros Ht.
  - destruct Hc as [_ _ _ _ HS0 HI0 HR0 _]. rewrite HS0, HI0, HR0. lra.
  - destruct IH as (Hs & Hi & Hr); [lia|].
    pose proof (trajectory_conserved self c k Hc t ltac:(lia)) as Hsum.
    destruct (traj_step _ _ _ Hc (S t) ltac:(lia)) as (HS & HI & HR).
    unfold susceptible_update, infected_update, recovered_update,
      new_infected_at, new_recovered_at in HS, HI, HR.
    replace (S t - 1)%nat with t in * by lia.
    destruct (new_infected_bounds (adjusted_beta self) (population (params self))
                (at_day (Susceptible c) t) (at_day (Infected c) t))
      as [Hn0 Hn1]; try assumption; [lra|].
    rewrite HS, HI, HR.
    set (ni := adjusted_beta self * at_day (Susceptible c) t * at_day (Infected c) t
               / population (params self)) in *.
    set (s := at_day (Susceptible c) t) in *.
    set (i := at_day (Infected c) t) in *.
    set (r := at_day (Recovered c) t) in *.
    set (ab := adjusted_beta self) in *.
    set (m := migration_rate (env_factors self)) in *.
    set (g := gamma (params self)) in *.
    assert (0 <= m * s) by nra.
    assert (0 <= g * i) by nra.
    assert (g * i <= i) by nra.
    assert (ab * s + m * s <= s) by nra.
    repeat split; lra.
Qed.

Lemma trajectory_monotone (c : series) (k : nat) :
  trajectory self c k ->
  forall t, (S t < k)%nat ->
    at_day (Susceptible c) (S t) <= at_day (Susceptible c) t
    /\ at_day (Recovered c) t <= at_day (Recovered c) (S t).
Proof.
  intros Hc t Ht.
  destruct (trajectory_bounded c k Hc t ltac:(lia)) as (Hs & Hi & Hr).
  pose proof (trajectory_conserved self c k Hc t ltac:(lia)) as Hsum.
  destruct Htame as [Hpop [Hi0 Hi1] [Hg0 Hg1] Hm Hab Hrate].
  destruct (traj_step _ _ _ Hc (S t) ltac:(lia)) as (HS & _ & HR).
  unfold susceptible_update, recovered_update, new_infected_at, new_recovered_at in HS, HR.
  replace (S t - 1)%nat with t in * by lia.
  destruct (new_infected_bounds (adjusted_beta self) (population (params self))
              (at_day (Susceptible c) t) (at_day (Infected c) t))
    as [Hn0 _]; try assumption; [lra|].
  rewrite HS, HR.
  set (ni := adjusted_beta self * at_day (Susceptible c) t * at_day (Infected c) t
             / population (params self)) in *.
  assert (0 <= migration_rate (env_factors self) * at_day (Susceptible c) t) by nra.
  assert (0 <= gamma (params self) * at_day (Infected c) t) by nra.
  split; lra.
Qed.

End Bounds.

Lemma tame_init : Notions.tame init.
Proof. constructor; q_decide. Qed.

(** X2: in exact (rational) arithmetic, when the population is positive,
    [0 <= initial_infected <= population], [0 <= gamma <= 1], the migration
    rate and the adjusted transmission rate are non-negative and their sum
    is at most 1, every compartment of every day of the run lies between 0
    and the population: the recurrence itself never leaves that range.  (The
    rounding of binary64 can move a value past a bound by its last bits;
    that is not covered.) *)
Theorem compartments_bounded (self : AnimalDiseaseAI) (days : Z) (t : nat) :
  Notions.tame self -> (Z.of_nat t < days)%Z ->
  exists c, generate_simulation self days = Return {| Day := range days; columns := c |}
    /\ 0 <= at_day (Susceptible c) t <= population (params self)
    /\ 0 <= at_day (Infected c) t <= population (params self)
    /\ 0 <= at_day (Recovered c) t <= population (params self).
Proof.
  intros Htame Ht.
  destruct (generate_simulation_returns self days (tame_nonzero self Htame))
    as (c & Hrun & Hc); [lia|].
  exists c. split; [exact Hrun|].
  destruct (trajectory_bounded self Htame c _ Hc t ltac:(lia)) as (Hs & Hi & Hr).
  pose proof (trajectory_conserved self c _ Hc t ltac:(lia)) as Hsum.
  cbv zeta in Hsum. repeat split; lra.
Qed.

Lemma compartments_bounded_witness :
  exists c, generate_simulation init 5 = Return {| Day := range 5; columns := c |}
    /\ 0 <= at_day (Susceptible c) 4 <= population (params init)
    /\ 0 <= at_day (Infected c) 4 <= population (params init)
    /\ 0 <= at_day (Recovered c) 4 <= population (params init).
Proof.
  apply (compartments_bounded init 5 4 tame_init). lia.
Defined.

(** X3: under the same conditions the susceptible count never rises and
    the recovered count never falls from one day to the next. *)
Theorem susceptible_falls_recovered_grows (self : AnimalDiseaseAI) (days : Z) (t : nat) :
  Notions.tame self -> (Z.of_nat (S t) < days)%Z ->
  exists c, generate_simulation self days = Return {| Day := range days; columns := c |}
    /\ at_day (Susceptible c) (S t) <= at_day (Susceptible c) t
    /\ at_day (Recovered c) t <= at_day (Recovered c) (S t).
Proof.
  intros Htame Ht.
  destruct (generate_simulation_returns self days (tame_nonzero self Htame))
    as (c & Hrun & Hc); [lia|].
  exists c. split; [exact Hrun|].
  apply (trajectory_monotone self Htame c _ Hc). lia.
Qed.

Lemma susceptible_falls_recovered_grows_witness :
  exists c, generate_simulation init 5 = Return {| Day := range 5; columns := c |}
    /\ at_day (Susceptible c) 4 <= at_day (Susceptible c) 3
    /\ at_day (Recovered c) 3 <= at_day (Recovered c) 4.
Proof.
  apply (susceptible_falls_recovered_grows init 5 3 tame_init). lia.
Defined.

(** ** Special regimes *)

Section Regimes.

Variable self : AnimalDiseaseAI.

Lemma trajectory_disease_free (c : series) (k : nat) :
  ~ population (params self) == 0 ->
  initial_infected (params self) == 0 ->
  migration_rate (env_factors self) == 0 ->
  trajectory self c k ->
  forall t, (t < k)%nat ->
    at_day (Susceptible c) t == population (params self)
    /\ at_day (Infected c) t == 0
    /\ at_day (Recovered c) t == 0.
Proof.
  intros Hpop Hinit Hm Hc t.
  induction t as [|t IH]; intros Ht.
  - destruct Hc as [_ _ _ _ HS0 HI0 HR0 _]. rewrite HS0, HI0, HR0, Hinit.
    repeat split; ring.
  - destruct IH as (Hs & Hi & Hr); [lia|].
    destruct (traj_step _ _ _ Hc (S t) ltac:(lia)) as (HS & HI & HR).
    unfold susceptible_update, infected_update, recovered_update,
      new_infected_at, new_recovered_at in HS, HI, HR.
    replace (S t - 1)%nat with t in * by lia.
    rewrite Hs, Hi, Hm in HS, HI. rewrite Hi, Hr in HR.
    rewrite HS, HI, HR. repeat split; field; exact Hpop.
Qed.

Lemma adjusted_beta_zero : beta (params self) == 0 -> adjusted_beta self == 0.
Proof. intros H. unfold adjusted_beta. rewrite H. ring. Qed.

Lemma power_succ (a : Q) (t : nat) : a ^ Z.of_nat (S t) == a ^ Z.of_nat t * a.
Proof.
  rewrite Nat2Z.inj_succ. unfold Z.succ.
  rewrite Qpower_plus' by lia. now rewrite Qpower_1_r.
Qed.

Lemma trajectory_decay (c : series) (k : nat) :
  ~ population (params self) == 0 ->
  beta (params self) == 0 ->
  migration_rate (env_factors self) == 0 ->
  trajectory self c k ->
  forall t, (t < k)%nat ->
    at_day (Susceptible c) t == population (params self) - initial_infected (params self)
    /\ at_day (Infected c) t
       == initial_infected (params self) * (1 - gamma (params self)) ^ Z.of_nat t
    /\ at_day (Recovered c) t
       == initial_infected (params self) * (1 - (1 - gamma (params self)) ^ Z.of_nat t).
Proof.
  intros Hpop Hbeta Hm Hc t.
  pose proof (adjusted_beta_zero Hbeta) as Hab.
  induction t as [|t IH]; intros Ht.
  - destruct Hc as [_ _ _ _ HS0 HI0 HR0 _]. rewrite HS0, HI0, HR0.
    change (Z.of_nat 0) with 0%Z. rewrite !Qpower_0_r. repeat split; ring.
  - destruct IH as (Hs & Hi & Hr); [lia|].
    destruct (traj_step _ _ _ Hc (S t) ltac:(lia)) as (HS & HI & HR).
    unfold susceptible_update, infected_update, recovered_update,
      new_infected_at, new_recovered_at in HS, HI, HR.
    replace (S t - 1)%nat with t in * by lia.
    rewrite Hab, Hm in HS, HI.
    rewrite HS, HI, HR, Hs, Hi, Hr, power_succ.
    repeat split; field; exact Hpop.
Qed.

Lemma adjusted_beta_linear :
  adjusted_beta self ==
  beta (params self)
  * (1 + 0.002 * (temperature (env_factors self) - 20)
       + 0.00075 * (humidity (env_factors self) - 60)).
Proof. unfold adjusted_beta. field. Qed.

End Regimes.

(** X4: a herd without infected animals and without migration stays as it
    is: on every day of the run the susceptible count is the population and
    the infected and recovered counts are 0. *)
Theorem disease_free (self : AnimalDiseaseAI) (days : Z) (t : nat) :
  ~ population (params self) == 0 ->
  initial_infected (params self) == 0 ->
  migration_rate (env_factors self) == 0 ->
  (Z.of_nat t < days)%Z ->
  exists c, generate_simulation self days = Return {| Day := range days; columns := c |}
    /\ at_day (Susceptible c) t == population (params self)
    /\ at_day (Infected c) t == 0
    /\ at_day (Recovered c) t == 0.
Proof.
  intros Hpop Hinit Hm Ht.
  destruct (generate_simulation_returns self days Hpop) as (c & Hrun & Hc); [lia|].
  exists c. split; [exact Hrun|].
  apply (trajectory_disease_free self c _ Hpop Hinit Hm Hc). lia.
Qed.

(** X5: in exact (rational) arithmetic, without transmission
    ([beta = 0]) and without migration the susceptible count stays at
    [population - initial_infected] and the infected count decays
    geometrically: [I[t] = initial_infected * (1 - gamma)^t] and
    [R[t] = initial_infected * (1 - (1 - gamma)^t)].  (In binary64 the
    iterates agree with the closed form up to rounding only.) *)
Theorem recovery_only (self : AnimalDiseaseAI) (days : Z) (t : nat) :
  ~ population (params self) == 0 ->
  beta (params self) == 0 ->
  migration_rate (env_factors self) == 0 ->
  (Z.of_nat t < days)%Z ->
  exists c, generate_simulation self days = Return {| Day := range days; columns := c |}
    /\ at_day (Susceptible c) t == population (params self) - initial_infected (params self)
    /\ at_day (Infected c) t
       == initial_infected (params self) * (1 - gamma (params self)) ^ Z.of_nat t
    /\ at_day (Recovered c) t
       == initial_infected (params self) * (1 - (1 - gamma (params self)) ^ Z.of_nat t).
Proof.
  intros Hpop Hbeta Hm Ht.
  destruct (generate_simulation_returns self days Hpop) as (c & Hrun & Hc); [lia|].
  exists c. split; [exact Hrun|].
  apply (trajectory_decay self c _ Hpop Hbeta Hm Hc). lia.
Qed.

(** X6: over the slider ranges of the environment (temperature from -10
    to 40, humidity from 10 to 100) and for [beta >= 0], the adjusted
    transmission rate lies between 0.9025 and 1.07 times [beta]; at 20
    degrees and 60 percent it is [beta]. *)
Theorem adjusted_beta_range (self : AnimalDiseaseAI) :
  Notions.in_sliders (env_factors self) -> 0 <= beta (params self) ->
  0.9025 * beta (params self) <= adjusted_beta self
  /\ adjusted_beta self <= 1.07 * beta (params self)
  /\ (temperature (env_factors self) == 20 -> humidity (env_factors self) == 60 ->
      adjusted_beta self == beta (params self)).
Proof.
  intros (Ht0 & Ht1 & Hh0 & Hh1) Hb.
  rewrite adjusted_beta_linear.
  set (b := beta (params self)) in *.
  set (T := temperature (env_factors self)) in *.
  set (H := humidity (env_factors self)) in *.
  repeat split; nra.
Qed.

Lemma disease_free_witness :
  exists c, generate_simulation
              {| params := {| beta := 0.3; gamma := 0.1; population := 50;
                              initial_infected := 0 |};
                 env_factors := {| temperature := 25; humidity := 70; migration_rate := 0 |};
                 analysis_cache := ∅ |} 6
            = Return {| Day := range 6; columns := c |}
    /\ at_day (Susceptible c) 5 == 50
    /\ at_day (Infected c) 5 == 0
    /\ at_day (Recovered c) 5 == 0.
Proof.
  apply (disease_free
           {| params := {| beta := 0.3; gamma := 0.1; population := 50;
                           initial_infected := 0 |};
              env_factors := {| temperature := 25; humidity := 70; migration_rate := 0 |};
              analysis_cache := ∅ |} 6 5); cbn; (q_decide || lia).
Defined.

Lemma recovery_only_witness :
  exists c, generate_simulation
              {| params := {| beta := 0; gamma := 0.5; population := 8;
                              initial_infected := 4 |};
                 env_factors := {| temperature := 20; humidity := 60; migration_rate := 0 |};
                 analysis_cache := ∅ |} 3
            = Return {| Day := range 3; columns := c |}
    /\ at_day (Susceptible c) 2 == 8 - 4
    /\ at_day (Infected c) 2 == 4 * (1 - 0.5) ^ Z.of_nat 2
    /\ at_day (Recovered c) 2 == 4 * (1 - (1 - 0.5) ^ Z.of_nat 2).
Proof.
  apply (recovery_only
           {| params := {| beta := 0; gamma := 0.5; population := 8;
                           initial_infected := 4 |};
              env_factors := {| temperature := 20; humidity := 60; migration_rate := 0 |};
              analysis_cache := ∅ |} 3 2); cbn; (q_decide || lia).
Defined.

Lemma adjusted_beta_range_witness :
  0.9025 * beta (params init) <= adjusted_beta init
  /\ adjusted_beta init <= 1.07 * beta (params init)
  /\ (temperature (env_factors init) == 20 -> humidity (env_factors init) == 60 ->
      adjusted_beta init == beta (params init)).
Proof.
  apply (adjusted_beta_range init); [repeat split; q_decide | q_decide].
Defined.

(** ** More on the intervention evaluator *)

Section EvaluatorFacts.

Import Comparison.

Lemma totals_unknown (sel1 sel2 : list string) (measure : string) :
  interventions !! measure = None ->
  totals (sel1 ++ measure :: sel2) = totals (sel1 ++ sel2).
Proof.
  intros H. unfold totals. rewrite !fold_left_app. cbn [fold_left].
  unfold add_measure at 2. now rewrite H.
Qed.

(** The two totals written as sums over the selection. *)
Lemma totals_sums (l : list string) :
  forall acc,
    fst (fold_left add_measure l acc)
    = (fst acc + fold_right (fun m a => cost_of m + a) 0 l)%Z
    /\ snd (fold_left add_measure l acc)
       == snd acc + fold_right (fun m a => reduction_of m + a) 0 l.
Proof.
  induction l as [|m l IH]; intros acc; cbn [fold_left fold_right].
  - split; [lia | ring].
  - destruct (IH (add_measure acc m)) as [-> ->].
    rewrite add_measure_fst, add_measure_snd. split; [lia | ring].
Qed.

Lemma cost_sum_permutation (l l' : list string) :
  Permutation l l' ->
  fold_right (fun m a => cost_of m + a)%Z 0%Z l
  = fold_right (fun m a => cost_of m + a)%Z 0%Z l'.
Proof.
  induction 1 as [| x l l' _ IH | x y l | l l' l'' _ IH1 _ IH2]; cbn [fold_right];
    [reflexivity | lia | lia | congruence].
Qed.

Lemma reduction_sum_permutation (l l' : list string) :
  Permutation l l' ->
  fold_right (fun m a => reduction_of m + a) 0 l
  == fold_right (fun m a => reduction_of m + a) 0 l'.
Proof.
  induction 1 as [| x l l' _ IH | x y l | l l' l'' _ IH1 _ IH2]; cbn [fold_right].
  - reflexivity.
  - now rewrite IH.
  - ring.
  - now rewrite IH1.
Qed.

Lemma reduction_sum_nonneg (l : list string) :
  0 <= fold_right (fun m a => reduction_of m + a) 0 l.
Proof.
  induction l as [|m l IH]; cbn [fold_right]; [lra|].
  pose proof (reduction_of_nonneg m). lra.
Qed.

Lemma cost_sum_nonneg (l : list string) :
  (0 <= fold_right (fun m a => cost_of m + a) 0 l)%Z.
Proof.
  induction l as [|m l IH]; cbn [fold_right]; [lia|].
  pose proof (cost_of_nonneg m). lia.
Qed.

Lemma max_compat (a x y : Q) : x == y -> max a x == max a y.
Proof.
  intros E.
  destruct (max_cases a x) as [[H1 ->] | [H1 ->]];
    destruct (max_cases a y) as [[H2 ->] | [H2 ->]]; lra.
Qed.

Lemma evaluate_interventions_returns_inv (self : AnimalDiseaseAI)
    (selected_measures : list string) (ev : Evaluation) :
  evaluate_interventions self selected_measures = Return ev ->
  ~ beta (params self) == 0 /\ ~ gamma (params self) == 0.
Proof.
  intros Hev.
  destruct (Qeq_dec (gamma (params self)) 0) as [Hg | Hg].
  - unfold evaluate_interventions in Hev. rewrite (truediv_zero _ _ Hg) in Hev.
    discriminate Hev.
  - split; [|exact Hg]. intros Hb.
    unfold evaluate_interventions in Hev.
    rewrite !(truediv_nonzero _ _ Hg) in Hev. cbn [bind] in Hev.
    rewrite truediv_zero in Hev; [discriminate Hev|].
    rewrite Hb. unfold Qdiv. ring.
Qed.

End EvaluatorFacts.

(** X7: an id that is not in the catalogue is ignored: adding it
    anywhere in a selection changes neither the outcome nor any of the
    figures [total_cost], [r0_reduction], [new_r0]. *)
Theorem unknown_measure_ignored (self : AnimalDiseaseAI)
    (sel1 sel2 : list string) (measure : string) :
  interventions !! measure = None ->
  Comparison.figures (evaluate_interventions self (sel1 ++ measure :: sel2))
  = Comparison.figures (evaluate_interventions self (sel1 ++ sel2)).
Proof.
  intros H. unfold evaluate_interventions.
  rewrite (totals_unknown sel1 sel2 measure H).
  destruct (truediv (beta (params self)) (gamma (params self))) as [r0|e]; [|reflexivity].
  cbn [bind].
  destruct (truediv _ (gamma (params self))) as [r1|e]; [|reflexivity].
  cbn [bind].
  destruct (truediv (r0 - r1) r0) as [q|e]; reflexivity.
Qed.

Lemma unknown_measure_ignored_witness :
  interventions !! "quarantine"%string = None
  /\ Comparison.figures
       (evaluate_interventions init (["isolation"] ++ "quarantine" :: ["sanitation"]))%string
     = Comparison.figures (evaluate_interventions init (["isolation"] ++ ["sanitation"]))%string.
Proof.
  assert (H : interventions !! "quarantine"%string = None) by reflexivity.
  split; [exact H|].
  exact (unknown_measure_ignored init ["isolation"%string] ["sanitation"%string]
           "quarantine"%string H).
Defined.

(** X8: two selections that are permutations of each other get the same
    [total_cost], a sum of integers, and, in exact (rational) arithmetic,
    equal [r0_reduction] and [new_r0] (for [beta] and [gamma] other than 0,
    where the evaluation returns).  (The source adds [beta_reduction] from
    left to right in binary64, where the order can change the last bits of
    the two ratios.) *)
Theorem selection_order_irrelevant (self : AnimalDiseaseAI) (sel sel' : list string) :
  Permutation sel sel' ->
  ~ beta (params self) == 0 -> ~ gamma (params self) == 0 ->
  exists ev ev',
    evaluate_interventions self sel = Return ev
    /\ evaluate_interventions self sel' = Return ev'
    /\ total_cost ev = total_cost ev'
    /\ r0_reduction ev == r0_reduction ev'
    /\ new_r0 ev == new_r0 ev'.
Proof.
  intros Hperm Hb Hg.
  do 2 eexists.
  split; [apply evaluate_interventions_returns; assumption|].
  split; [apply evaluate_interventions_returns; assumption|].
  cbn [total_cost r0_reduction new_r0]. unfold totals.
  destruct (totals_sums sel (0%Z, 0)) as [Hc Hr].
  destruct (totals_sums sel' (0%Z, 0)) as [Hc' Hr'].
  assert (E : snd (fold_left add_measure sel (0%Z, 0))
              == snd (fold_left add_measure sel' (0%Z, 0))).
  { rewrite Hr, Hr'. now rewrite (reduction_sum_permutation sel sel' Hperm). }
  assert (Em : max 0.01 (beta (params self) * (1 - snd (fold_left add_measure sel (0%Z, 0))))
               == max 0.01 (beta (params self)
                            * (1 - snd (fold_left add_measure sel' (0%Z, 0))))).
  { apply max_compat. now rewrite E. }
  split; [rewrite Hc, Hc'; now rewrite (cost_sum_permutation sel sel' Hperm)|].
  split; now rewrite Em.
Qed.

Lemma selection_order_irrelevant_witness :
  exists ev ev',
    evaluate_interventions init ["vaccination"; "isolation"]%string = Return ev
    /\ evaluate_interventions init ["isolation"; "vaccination"]%string = Return ev'
    /\ total_cost ev = total_cost ev'
    /\ r0_reduction ev == r0_reduction ev'
    /\ new_r0 ev == new_r0 ev'.
Proof.
  apply (selection_order_irrelevant init); [apply perm_swap | q_decide | q_decide].
Defined.

(** X9: for [beta >= 0.01] and [gamma > 0] every evaluation returns, with
    a cost that is not negative, a reduction in [0, 100) and a new R0 between
    [0.01 / gamma] and the original [beta / gamma]; the selection is echoed
    as given. *)
Theorem evaluation_bounds (self : AnimalDiseaseAI) (selected_measures : list string) :
  0.01 <= beta (params self) -> 0 < gamma (params self) ->
  exists ev, evaluate_interventions self selected_measures = Return ev
    /\ (0 <= total_cost ev)%Z
    /\ 0 <= r0_reduction ev /\ r0_reduction ev < 100
    /\ 0.01 / gamma (params self) <= new_r0 ev
    /\ new_r0 ev <= beta (params self) / gamma (params self)
    /\ measures ev = selected_measures.
Proof.
  intros Hb Hg.
  assert (Hb0 : ~ beta (params self) == 0) by lra.
  assert (Hg0 : ~ gamma (params self) == 0) by lra.
  eexists. split; [apply evaluate_interventions_returns; assumption|].
  cbn [total_cost r0_reduction new_r0 measures]. unfold totals.
  destruct (totals_sums selected_measures (0%Z, 0)) as [Hc Hr].
  cbn [fst snd] in Hc, Hr.
  pose proof (cost_sum_nonneg selected_measures) as Hcn.
  pose proof (reduction_sum_nonneg selected_measures) as Hrn.
  set (tbr := snd (fold_left add_measure selected_measures (0%Z, 0))) in *.
  assert (Htbr : 0 <= tbr) by (rewrite Hr; lra).
  assert (Hnb : 0.01 <= max 0.01 (beta (params self) * (1 - tbr))
                /\ max 0.01 (beta (params self) * (1 - tbr)) <= beta (params self)).
  { destruct (max_cases 0.01 (beta (params self) * (1 - tbr))) as [[H ->] | [H ->]];
      split; nra. }
  destruct Hnb as [Hn0 Hn1].
  set (nb := max 0.01 (beta (params self) * (1 - tbr))) in *.
  assert (Hib : 0 < / beta (params self)) by (apply Qinv_lt_0_compat; lra).
  assert (Hig : 0 < / gamma (params self)) by (apply Qinv_lt_0_compat; lra).
  assert (Hone : beta (params self) * / beta (params self) == 1) by (field; exact Hb0).
  split; [lia|].
  rewrite reduction_closed_form by assumption.
  unfold Qdiv.
  set (ib := / beta (params self)) in *. set (ig := / gamma (params self)) in *.
  set (b := beta (params self)) in *.
  assert (0 < nb * ib) by nra.
  assert (nb * ib <= 1) by nra.
  repeat split; try nra.
Qed.

Lemma evaluation_bounds_witness :
  exists ev,
    evaluate_interventions init ["vaccination"; "isolation"; "restriction"]%string = Return ev
    /\ (0 <= total_cost ev)%Z
    /\ 0 <= r0_reduction ev /\ r0_reduction ev < 100
    /\ 0.01 / gamma (params init) <= new_r0 ev
    /\ new_r0 ev <= beta (params init) / gamma (params init)
    /\ measures ev = ["vaccination"; "isolation"; "restriction"]%string.
Proof.
  apply (evaluation_bounds init); q_decide.
Defined.

(** ** The before/after comparison *)

Section ComparisonFacts.

Import Comparison.

Lemma set_beta_restore (self : AnimalDiseaseAI) (b' : Q) :
  set_beta (set_beta self b') (beta (params self)) = self.
Proof. destruct self as [[b g p i] e cache]. reflexivity. Qed.

Lemma generate_simulation_returns_inv (self : AnimalDiseaseAI) (days : Z) (df : DataFrame) :
  (2 <= days)%Z -> generate_simulation self days = Return df ->
  ~ population (params self) == 0.
Proof.
  intros Hdays Hrun Hpop.
  rewrite (generate_simulation_zero_population self days Hpop Hdays) in Hrun.
  discriminate Hrun.
Qed.

Lemma reduced_beta_returns (self : AnimalDiseaseAI) (ev : Evaluation) :
  reduced_beta self ev = Return (beta (params self) * (1 - r0_reduction ev / 100)).
Proof.
  unfold reduced_beta. rewrite truediv_nonzero; [reflexivity | q_decide].
Qed.

(** The block succeeds whenever no division fails. *)
Lemma compare_returns (self : AnimalDiseaseAI) (measure : string) (selected : list string) :
  ~ beta (params self) == 0 -> ~ gamma (params self) == 0 ->
  ~ population (params self) == 0 ->
  exists cmp, fst (compare self (measure :: selected)) = Return (Some cmp).
Proof.
  intros Hb Hg Hpop. unfold compare.
  rewrite (evaluate_interventions_returns self (measure :: selected) Hb Hg).
  destruct (generate_simulation_returns self 100 Hpop ltac:(lia)) as (c & -> & _).
  rewrite reduced_beta_returns.
  match goal with
  | |- context [generate_simulation ?s 100] =>
      destruct (generate_simulation_returns s 100 Hpop ltac:(lia)) as (c' & -> & _)
  end.
  eexists. reflexivity.
Qed.

End ComparisonFacts.

(** X10: the comparison block never leaves the model changed: whether it
    returns or an exception leaves it, [beta] and every other field are as
    before the block.  (The second run can fail only where the first one,
    made before [beta] is overwritten, has already failed.) *)
Theorem compare_restores (self : AnimalDiseaseAI) (selected : list string) :
  snd (Comparison.compare self selected) = self.
Proof.
  unfold Comparison.compare.
  destruct selected as [|m sel]; [reflexivity|].
  destruct (evaluate_interventions self (m :: sel)) as [ev|e]; [|reflexivity].
  destruct (generate_simulation self 100) as [original|e] eqn:Horig; [|reflexivity].
  rewrite reduced_beta_returns.
  pose proof (generate_simulation_returns_inv self 100 original ltac:(lia) Horig) as Hpop.
  destruct (generate_simulation_returns
              (Comparison.set_beta self (beta (params self) * (1 - r0_reduction ev / 100)))
              100 Hpop ltac:(lia)) as (c & -> & _).
  cbn [snd]. apply set_beta_restore.
Qed.

(** X11: when the comparison block succeeds, the first run and the
    evaluation are those of the unchanged model, and the second run is the
    run of the model whose [beta] is replaced by
    [beta * (1 - r0_reduction / 100)], a value that in exact (rational)
    arithmetic equals the floored
    [new_beta = max(0.01, beta * (1 - total_beta_reduction))] of the
    evaluation.  (In binary64 the two agree up to rounding only.) *)
Theorem compare_uses_new_beta (self : AnimalDiseaseAI) (selected : list string)
    (cmp : Comparison.Comparison) :
  fst (Comparison.compare self selected) = Return (Some cmp) ->
  evaluate_interventions self selected = Return (Comparison.evaluation cmp)
  /\ generate_simulation self 100 = Return (Comparison.original_data cmp)
  /\ exists b',
       generate_simulation (Comparison.set_beta self b') 100
       = Return (Comparison.new_data cmp)
       /\ b' == max 0.01 (beta (params self) * (1 - snd (totals selected))).
Proof.
  unfold Comparison.compare.
  destruct selected as [|m sel]; [discriminate|].
  destruct (evaluate_interventions self (m :: sel)) as [ev|e] eqn:Hev; [|discriminate].
  destruct (generate_simulation self 100) as [original|e] eqn:Horig; [|discriminate].
  rewrite reduced_beta_returns.
  match goal with
  | |- context [generate_simulation (Comparison.set_beta self ?b) 100] =>
      destruct (generate_simulation (Comparison.set_beta self b) 100)
        as [new|e] eqn:Hnew; [|discriminate]
  end.
  cbn [fst]. intros H. injection H as <-. cbn [Comparison.evaluation
    Comparison.original_data Comparison.new_data].
  split; [reflexivity|]. split; [reflexivity|].
  eexists. split; [exact Hnew|].
  destruct (evaluate_interventions_returns_inv self _ _ Hev) as [Hb Hg].
  rewrite (evaluate_interventions_returns self (m :: sel) Hb Hg) in Hev.
  injection Hev as <-. cbn [r0_reduction].
  field. split; assumption.
Qed.

Lemma compare_uses_new_beta_witness :
  exists cmp,
    fst (Comparison.compare init ["isolation"]%string) = Return (Some cmp)
    /\ evaluate_interventions init ["isolation"]%string
       = Return (Comparison.evaluation cmp)
    /\ generate_simulation init 100 = Return (Comparison.original_data cmp)
    /\ exists b',
         generate_simulation (Comparison.set_beta init b') 100
         = Return (Comparison.new_data cmp)
         /\ b' == max 0.01 (beta (params init) * (1 - snd (totals ["isolation"]%string))).
Proof.
  destruct (compare_returns init "isolation"%string [])
    as [cmp E]; [q_decide | q_decide | q_decide |].
  exists cmp. split; [exact E|].
  exact (compare_uses_new_beta init ["isolation"]%string cmp E).
Defined.

(** ** Species *)

Lemma species_rates (species : string) (profile : Species.Profile) :
  Species.species_params !! species = Some profile ->
  0.01 <= Species.beta profile /\ Species.beta profile <= 1
  /\ 0 < Species.gamma profile.
Proof.
  intros H. apply elem_of_list_to_map_2 in H.
  rewrite !elem_of_cons, elem_of_nil in H.
  destruct H as [H|[H|[H|[]]]]; inversion H; subst; cbn; repeat split; q_decide.
Qed.

(** X12: [set_species] with a name that is not a key of [species_params]
    returns [False] and changes nothing; with a known name it returns
    [True], records the name, and writes the profile's [beta] and [gamma],
    which satisfy [0.01 <= beta <= 1] and [gamma > 0], so that every later
    [evaluate_interventions] returns.  In both cases the population, the
    initially infected, the environment and the cache are untouched. *)
Theorem set_species_effect (self : AnimalDiseaseAI) (current_species species : string) :
  let r := Species.set_species self current_species species in
  let self' := fst (snd r) in
  population (params self') = population (params self)
  /\ initial_infected (params self') = initial_infected (params self)
  /\ env_factors self' = env_factors self
  /\ analysis_cache self' = analysis_cache self
  /\ (fst r = false ->
      Species.species_params !! species = None /\ snd r = (self, current_species))
  /\ (fst r = true ->
      snd (snd r) = species
      /\ (exists profile, Species.species_params !! species = Some profile
            /\ beta (params self') = Species.beta profile
            /\ gamma (params self') = Species.gamma profile)
      /\ 0.01 <= beta (params self') /\ beta (params self') <= 1
      /\ 0 < gamma (params self')
      /\ forall selected, exists ev,
           evaluate_interventions self' selected = Return ev).
Proof.
  unfold Species.set_species.
  destruct (Species.species_params !! species) as [profile|] eqn:E; cbn.
  - destruct (species_rates species profile E) as (Hb0 & Hb1 & Hg).
    repeat split; try discriminate; try assumption.
    + exists profile. now repeat split.
    + intros selected. eexists.
      apply evaluate_interventions_returns; cbn; lra.
  - repeat split; discriminate.
Qed.

(** ** More on the risk score *)

Section ScoreFacts.

Lemma sum_nonneg (l : list Q) : Forall (fun x => 0 <= x) l -> 0 <= sum l.
Proof.
  induction 1 as [|x l Hx _ IH]; [unfold sum; cbn; lra|].
  rewrite sum_cons. lra.
Qed.

Lemma sum_pos (l : list Q) (b : Q) :
  l <> [] -> Forall (fun x => b < x) l -> 0 <= b -> b < sum l.
Proof.
  intros Hl Hall Hb. destruct Hall as [|x l Hx Hall]; [congruence|].
  rewrite sum_cons.
  assert (0 <= sum l).
  { apply sum_nonneg. eapply Forall_impl; [exact Hall|]. cbn. intros; lra. }
  lra.
Qed.

Lemma is_risk_object_confidence (obj : Detection.t) :
  is_risk_object obj = true -> 0.5 < Detection.confidence obj.
Proof.
  unfold is_risk_object. rewrite andb_true_iff. intros [_ H]. now apply ltb_lt in H.
Qed.

Lemma is_risk_feature_confidence (feat : Classification.t) :
  is_risk_feature feat = true -> 50 < Classification.confidence feat.
Proof.
  unfold is_risk_feature. rewrite andb_true_iff. intros [_ H]. now apply ltb_lt in H.
Qed.

Lemma object_terms (detection : list Detection.t) :
  Forall (fun x => 0.25 < x)
    (List.map (fun obj => Detection.confidence obj * 0.5) (risk_objects detection)).
Proof.
  apply List.Forall_forall. intros x Hx.
  apply List.in_map_iff in Hx. destruct Hx as (obj & <- & Hobj).
  apply List.filter_In in Hobj. destruct Hobj as [_ Hobj].
  apply is_risk_object_confidence in Hobj. lra.
Qed.

Lemma feature_terms (classification : list Classification.t) :
  Forall (fun x => 10 < x)
    (List.map (fun feat => Classification.confidence feat * 0.2)
              (risk_features classification)).
Proof.
  apply List.Forall_forall. intros x Hx.
  apply List.in_map_iff in Hx. destruct Hx as (feat & <- & Hfeat).
  apply List.filter_In in Hfeat. destruct Hfeat as [_ Hfeat].
  apply is_risk_feature_confidence in Hfeat. lra.
Qed.

Lemma object_score_nonneg (detection : list Detection.t) : 0 <= object_score detection.
Proof.
  apply sum_nonneg. eapply Forall_impl; [apply object_terms|]. cbn. intros; lra.
Qed.

Lemma feature_score_nonneg (classification : list Classification.t) :
  0 <= feature_score classification.
Proof.
  apply sum_nonneg. eapply Forall_impl; [apply feature_terms|]. cbn. intros; lra.
Qed.

Lemma avian_flu_risk_cases (h_mean s_mean : Q) :
  (h_mean < 40 /\ 0.65 < s_mean
   /\ 0 < avian_flu_risk h_mean s_mean /\ avian_flu_risk h_mean s_mean <= 0.3)
  \/ (~ (h_mean < 40 /\ 0.65 < s_mean) /\ avian_flu_risk h_mean s_mean = 0).
Proof.
  unfold avian_flu_risk, gtb.
  destruct (ltb h_mean 40) eqn:Eh; destruct (ltb 0.65 s_mean) eqn:Es; cbn [andb];
    try apply ltb_lt in Eh; try apply ltb_lt in Es;
    try apply ltb_ge in Eh; try apply ltb_ge in Es.
  - left. split; [exact Eh|]. split; [exact Es|].
    assert (H1 : 0 <= (40 - h_mean) / 10)
      by (apply Qle_shift_div_l; [lra | lra]).
    assert (H1' : ~ (40 - h_mean) / 10 == 0).
    { intros E. assert (E' : 40 - h_mean == (40 - h_mean) / 10 * 10) by field.
      rewrite E in E'. lra. }
    assert (H2 : 0 <= (s_mean - 0.65) / 0.1)
      by (apply Qle_shift_div_l; [lra | lra]).
    destruct (min_cases ((40 - h_mean) / 10 + (s_mean - 0.65) / 0.1) 1)
      as [[H ->] | [H ->]]; lra.
  - right. split; [|reflexivity]. intros [_ H]. lra.
  - right. split; [|reflexivity]. intros [H _]. lra.
  - right. split; [|reflexivity]. intros [H _]. lra.
Qed.

Lemma bonus_cases (c : bool) : (if c then 0.3 else 0) == 0 \/ (if c then 0.3 else 0) == 0.3.
Proof. destruct c; [right | left]; reflexivity. Qed.

End ScoreFacts.

(** X13: the avian-flu term lies in [0, 0.3] and is positive exactly when
    both alerts hold ([hue_mean < 40] and [saturation_mean > 0.65]); the
    stored flags [h_alert] and [s_alert] are these two tests. *)
Theorem avian_flu_risk_range (detection : list Detection.t)
    (classification : list Classification.t) (h_mean s_mean v_mean : Q) :
  let a := analyze_feces detection classification h_mean s_mean v_mean in
  0 <= analysis_avian_flu_risk a /\ analysis_avian_flu_risk a <= 0.3
  /\ (0 < analysis_avian_flu_risk a <-> h_alert a = true /\ s_alert a = true)
  /\ (h_alert a = true <-> h_mean < 40)
  /\ (s_alert a = true <-> 0.65 < s_mean).
Proof.
  cbn [analyze_feces analysis_avian_flu_risk h_alert s_alert]. unfold gtb.
  rewrite !ltb_lt.
  destruct (avian_flu_risk_cases h_mean s_mean) as [(Hh & Hs & H0 & H1) | [Hn ->]].
  - repeat split; try assumption; lra.
  - repeat split; try assumption; try lra; try tauto.
Qed.

(** X14: the score is never negative, and it is 0 exactly when no item
    passes the filters, [hue_mean >= 50] and [saturation_mean <= 0.6]; the
    verdict is then [LowRisk]. *)
Theorem zero_score (detection : list Detection.t)
    (classification : list Classification.t) (h_mean s_mean v_mean : Q) :
  let a := analyze_feces detection classification h_mean s_mean v_mean in
  0 <= probability a
  /\ (probability a == 0 <->
      detected_objects a = [] /\ detected_features a = []
      /\ 50 <= h_mean /\ s_mean <= 0.6)
  /\ (probability a == 0 -> risk_level a = LowRisk).
Proof.
  cbn [analyze_feces probability detected_objects detected_features risk_level].
  rewrite total_risk_scores.
  pose proof (object_score_nonneg detection) as Ho.
  pose proof (feature_score_nonneg classification) as Hf.
  assert (Hthr : 0.6 <= threshold detection).
  { unfold threshold. destruct (existsb _ _); lra. }
  assert (Ha : 0 <= avian_flu_risk h_mean s_mean).
  { destruct (avian_flu_risk_cases h_mean s_mean) as [(_ & _ & H & _) | [_ ->]]; lra. }
  assert (Hobj : risk_objects detection <> [] -> 0.25 < object_score detection).
  { intros Hne. apply sum_pos; [|apply object_terms | lra].
    destruct (risk_objects detection); [congruence | discriminate]. }
  assert (Hfeat : risk_features classification <> [] -> 10 < feature_score classification).
  { intros Hne. apply sum_pos; [|apply feature_terms | lra].
    destruct (risk_features classification); [congruence | discriminate]. }
  assert (Hzero : object_score detection + feature_score classification
            + avian_flu_risk h_mean s_mean
            + (if ltb h_mean 50 then 0.3 else 0)
            + (if gtb s_mean 0.6 then 0.3 else 0) == 0 ->
          risk_objects detection = [] /\ risk_features classification = []
          /\ 50 <= h_mean /\ s_mean <= 0.6).
  { intros Hz.
    unfold gtb in *.
    destruct (ltb h_mean 50) eqn:Eh; destruct (ltb 0.6 s_mean) eqn:Es;
      try (exfalso; lra).
    apply ltb_ge in Eh. apply ltb_ge in Es.
    repeat split; try assumption.
    - destruct (risk_objects detection) eqn:E; [reflexivity|].
      exfalso. assert (0.25 < object_score detection) by (apply Hobj; discriminate). lra.
    - destruct (risk_features classification) eqn:E; [reflexivity|].
      exfalso. assert (10 < feature_score classification) by (apply Hfeat; discriminate).
      lra. }
  split; [|split].
  - destruct (ltb h_mean 50); destruct (gtb s_mean 0.6); lra.
  - split; [exact Hzero|].
    intros (Eo & Ef & Hh & Hs).
    unfold object_score, feature_score. rewrite Eo, Ef. cbn [List.map].
    destruct (avian_flu_risk_cases h_mean s_mean) as [(H1 & _) | [_ ->]]; [lra|].
    unfold gtb. apply ltb_ge in Hh. apply ltb_ge in Hs. rewrite Hh, Hs.
    reflexivity.
  - intros Hz. unfold gtb at 1.
    replace (ltb (threshold detection) _) with false; [reflexivity|].
    symmetry. apply ltb_ge. rewrite <- total_risk_scores in Hz. rewrite Hz. lra.
Qed.

(** X15: one classification item that passes the filter (a keyword in
    its label and a confidence above 50) is enough for [HighRisk], whatever
    the detections and the colours: the score then exceeds 10. *)
Theorem risk_feature_decides (detection : list Detection.t)
    (classification : list Classification.t) (h_mean s_mean v_mean : Q) :
  risk_features classification <> [] ->
  let a := analyze_feces detection classification h_mean s_mean v_mean in
  10 < probability a /\ risk_level a = HighRisk.
Proof.
  intros Hne. cbn [analyze_feces probability risk_level].
  assert (Hp : 10 < total_risk detection classification h_mean s_mean).
  { rewrite total_risk_scores.
    pose proof (object_score_nonneg detection) as Ho.
    assert (Hf : 10 < feature_score classification)
      by (apply sum_pos; [|apply feature_terms | lra];
          destruct (risk_features classification); [congruence | discriminate]).
    assert (Ha : 0 <= avian_flu_risk h_mean s_mean).
    { destruct (avian_flu_risk_cases h_mean s_mean) as [(_ & _ & H & _) | [_ ->]]; lra. }
    destruct (ltb h_mean 50); destruct (gtb s_mean 0.6); lra. }
  split; [exact Hp|].
  assert (Hthr : threshold detection <= 0.65).
  { unfold threshold. destruct (existsb _ _); lra. }
  unfold gtb. replace (ltb (threshold detection) _) with true; [reflexivity|].
  symmetry. apply ltb_lt. lra.
Qed.

Lemma risk_feature_decides_witness :
  risk_features [{| Classification.label := "Bloody stool";
                    Classification.confidence := 51 |}] <> []
  /\ let a := analyze_feces []
                [{| Classification.label := "Bloody stool";
                    Classification.confidence := 51 |}] 90 0.2 0.5 in
     10 < probability a /\ risk_level a = HighRisk.
Proof.
  assert (H : risk_features [{| Classification.label := "Bloody stool";
                                Classification.confidence := 51 |}] <> [])
    by (vm_compute; discriminate).
  split; [exact H|].
  exact (risk_feature_decides [] _ 90 0.2 0.5 H).
Defined.

(** ** Filters and threshold *)

Section FilterFacts.

Lemma append_cons (c : Ascii.ascii) (a post : string) :
  String.append (String c a) post = String c (String.append a post).
Proof. reflexivity. Qed.

Lemma append_nil (post : string) : String.append EmptyString post = post.
Proof. reflexivity. Qed.

Lemma prefix_spec (a : string) :
  forall b, String.prefix a b = true <-> exists post, b = String.append a post.
Proof.
  induction a as [|c a IH]; intros b.
  - split; [intros _; exists b; now rewrite append_nil|].
    intros _. destruct b; reflexivity.
  - destruct b as [|c' b]; cbn [String.prefix].
    + split; [discriminate|]. intros [post H]. rewrite append_cons in H. discriminate H.
    + destruct (Ascii.ascii_dec c c') as [->|Hne].
      * rewrite IH. split; intros [post H]; exists post.
        -- rewrite append_cons. now rewrite H.
        -- rewrite append_cons in H. now injection H.
      * split; [discriminate|]. intros [post H]. rewrite append_cons in H. congruence.
Qed.

Lemma contains_spec (needle : string) :
  forall hay,
    contains needle hay = true <->
    exists pre post, hay = String.append pre (String.append needle post).
Proof.
  induction hay as [|c hay IH]; cbn [contains].
  - rewrite orb_false_r, prefix_spec. split.
    + intros [post H]. exists EmptyString, post. now rewrite append_nil.
    + intros (pre & post & H). destruct pre as [|c' pre].
      * rewrite append_nil in H. now exists post.
      * rewrite append_cons in H. discriminate H.
  - rewrite orb_true_iff, prefix_spec, IH. split.
    + intros [[post H] | (pre & post & H)].
      * exists EmptyString, post. now rewrite append_nil.
      * exists (String c pre), post. rewrite append_cons. now rewrite H.
    + intros (pre & post & H). destruct pre as [|c' pre].
      * left. rewrite append_nil in H. now exists post.
      * right. rewrite append_cons in H. injection H as _ H. now exists pre, post.
Qed.

Lemma poultry_label (name : string) :
  bool_decide (name ∈ ["chicken"; "duck"]) = true
  <-> name = "chicken"%string \/ name = "duck"%string.
Proof.
  rewrite bool_decide_eq_true, !elem_of_cons, elem_of_nil. tauto.
Qed.

Lemma poultry_is_high_risk (name : string) :
  name = "chicken"%string \/ name = "duck"%string ->
  bool_decide (name ∈ high_risk_objects feces_config) = true.
Proof.
  intros H. apply bool_decide_eq_true. cbn. rewrite !elem_of_cons. tauto.
Qed.

Lemma risk_objects_skip (before after : list Detection.t) (obj : Detection.t) :
  is_risk_object obj = false ->
  risk_objects (before ++ obj :: after) = risk_objects (before ++ after).
Proof.
  intros H. unfold risk_objects. rewrite !List.filter_app. cbn [List.filter].
  now rewrite H.
Qed.

Lemma risk_features_skip (before after : list Classification.t) (feat : Classification.t) :
  is_risk_feature feat = false ->
  risk_features (before ++ feat :: after) = risk_features (before ++ after).
Proof.
  intros H. unfold risk_features. rewrite !List.filter_app. cbn [List.filter].
  now rewrite H.
Qed.

End FilterFacts.

(** X16: the threshold is 0.6 or 0.65, and it is 0.6 exactly when some
    detection is named "chicken" or "duck" with a confidence above 0.5; a
    "bird", although a high-risk object, does not lower it. *)
Theorem threshold_lowered_by_poultry (detection : list Detection.t) :
  (threshold detection = 0.6 \/ threshold detection = 0.65)
  /\ (threshold detection = 0.6 <->
      exists obj, In obj detection
        /\ (Detection.name obj = "chicken"%string \/ Detection.name obj = "duck"%string)
        /\ 0.5 < Detection.confidence obj).
Proof.
  unfold threshold.
  destruct (existsb _ (risk_objects detection)) eqn:E.
  - split; [now left|]. split; [|reflexivity]. intros _.
    apply List.existsb_exists in E. destruct E as (obj & Hin & Hname).
    apply List.filter_In in Hin. destruct Hin as [Hin Hrisk].
    exists obj. split; [exact Hin|]. split; [now apply poultry_label|].
    now apply is_risk_object_confidence.
  - split; [now right|]. split; [discriminate|].
    intros (obj & Hin & Hname & Hconf). exfalso.
    assert (Hex : existsb
              (fun obj => bool_decide (Detection.name obj ∈ ["chicken"; "duck"]))
              (risk_objects detection) = true).
    { apply List.existsb_exists. exists obj. split; [|now apply poultry_label].
      apply List.filter_In. split; [exact Hin|].
      unfold is_risk_object. rewrite (poultry_is_high_risk _ Hname). cbn [andb].
      now apply ltb_lt. }
    congruence.
Qed.

(** X17: an item that fails its filter is inert: removing a detection
    with an unlisted name or a confidence of at most 0.5, and a
    classification without keyword or with a confidence of at most 50,
    leaves the whole analysis record as it is. *)
Theorem filtered_items_inert (d1 d2 : list Detection.t) (obj : Detection.t)
    (c1 c2 : list Classification.t) (feat : Classification.t) (h_mean s_mean v_mean : Q) :
  is_risk_object obj = false -> is_risk_feature feat = false ->
  analyze_feces (d1 ++ obj :: d2) (c1 ++ feat :: c2) h_mean s_mean v_mean
  = analyze_feces (d1 ++ d2) (c1 ++ c2) h_mean s_mean v_mean.
Proof.
  intros Ho Hf. unfold analyze_feces, total_risk, threshold.
  now rewrite (risk_objects_skip d1 d2 obj Ho), (risk_features_skip c1 c2 feat Hf).
Qed.

Lemma filtered_items_inert_witness :
  is_risk_object {| Detection.name := "bird"; Detection.confidence := 0.5 |} = false
  /\ is_risk_feature {| Classification.label := "tabby cat";
                        Classification.confidence := 99 |} = false
  /\ analyze_feces
       ([] ++ {| Detection.name := "bird"; Detection.confidence := 0.5 |} :: [])
       ([] ++ {| Classification.label := "tabby cat";
                 Classification.confidence := 99 |} :: []) 45 0.7 0.5
     = analyze_feces ([] ++ []) ([] ++ []) 45 0.7 0.5.
Proof.
  assert (H1 : is_risk_object {| Detection.name := "bird"; Detection.confidence := 0.5 |}
               = false) by reflexivity.
  assert (H2 : is_risk_feature {| Classification.label := "tabby cat";
                                   Classification.confidence := 99 |} = false)
    by reflexivity.
  split; [exact H1|]. split; [exact H2|].
  exact (filtered_items_inert [] [] _ [] [] _ 45 0.7 0.5 H1 H2).
Defined.

(** X18: a classification item passes the filter exactly when its
    confidence exceeds 50 and one of the six keywords occurs as a substring
    of its label with the letters A to Z lowered: the match ignores case and
    needs no word boundary. *)
Theorem keyword_match (feat : Classification.t) :
  is_risk_feature feat = true <->
  50 < Classification.confidence feat
  /\ exists keyword, In keyword (high_risk_features feces_config)
       /\ exists pre post,
            lower (Classification.label feat)
            = String.append pre (String.append keyword post).
Proof.
  unfold is_risk_feature, gtb.
  rewrite andb_true_iff, ltb_lt, List.existsb_exists.
  split.
  - intros [(keyword & Hin & Hc) Hconf]. split; [exact Hconf|].
    exists keyword. split; [exact Hin|]. now apply contains_spec.
  - intros [Hconf (keyword & Hin & Hsub)]. split; [|exact Hconf].
    exists keyword. split; [exact Hin|]. now apply contains_spec.
Qed.

(** X19: detections alone need company: when the detector's confidences
    are at most 1, at most one detection passes the filter, no
    classification passes, [hue_mean >= 50] and [saturation_mean <= 0.6],
    the score is at most 0.5 and the verdict is [LowRisk]. *)
Theorem lone_detection_low_risk (detection : list Detection.t)
    (classification : list Classification.t) (h_mean s_mean v_mean : Q) :
  Notions.unit_confidences detection ->
  (length (risk_objects detection) <= 1)%nat ->
  risk_features classification = [] ->
  50 <= h_mean -> s_mean <= 0.6 ->
  let a := analyze_feces detection classification h_mean s_mean v_mean in
  probability a <= 0.5 /\ risk_level a = LowRisk.
Proof.
  intros Hunit Hlen Hfeat Hh Hs. cbn [analyze_feces probability risk_level].
  assert (Hp : total_risk detection classification h_mean s_mean <= 0.5).
  { rewrite total_risk_scores. unfold feature_score. rewrite Hfeat. cbn [List.map].
    destruct (avian_flu_risk_cases h_mean s_mean) as [(H1 & _) | [_ ->]]; [lra|].
    unfold gtb. apply ltb_ge in Hh. apply ltb_ge in Hs. rewrite Hh, Hs.
    unfold object_score.
    destruct (risk_objects detection) as [|obj [|obj' rest]] eqn:E; cbn [List.map].
    - unfold sum. cbn [fold_left]. lra.
    - assert (Hin : In obj (risk_objects detection)) by (rewrite E; now left).
      apply List.filter_In in Hin. destruct Hin as [Hin _].
      unfold Notions.unit_confidences in Hunit.
      rewrite List.Forall_forall in Hunit. specialize (Hunit obj Hin).
      rewrite sum_cons. unfold sum. cbn [fold_left]. lra.
    - cbn [length] in Hlen. lia. }
  split; [exact Hp|].
  assert (Hthr : 0.6 <= threshold detection).
  { unfold threshold. destruct (existsb _ _); lra. }
  unfold gtb. replace (ltb (threshold detection) _) with false; [reflexivity|].
  symmetry. apply ltb_ge. lra.
Qed.

Lemma lone_detection_low_risk_witness :
  let a := analyze_feces [{| Detection.name := "duck"; Detection.confidence := 1 |}]
             [] 60 0.4 0.5 in
  probability a <= 0.5 /\ risk_level a = LowRisk.
Proof.
  apply (lone_detection_low_risk [{| Detection.name := "duck"; Detection.confidence := 1 |}]
           [] 60 0.4 0.5).
  - repeat constructor. cbn. q_decide.
  - vm_compute. lia.
  - reflexivity.
  - q_decide.
  - q_decide.
Defined.

(** ** The advice text *)

Section AdviceFacts.

Import Advice.

Variable format_1f : Q -> string.
Variable format_2f : Q -> string.

(** Both alert paragraphs start with the bytes of the warning sign. *)
Definition alert_start (p : string) : Prop :=
  exists rest,
    p = String (Ascii.ascii_of_nat 226) (String (Ascii.ascii_of_nat 154) rest).

Lemma low_hue_start (h : Q) : alert_start (low_hue format_1f h).
Proof. eexists. reflexivity. Qed.

Lemma high_saturation_start (s : Q) : alert_start (high_saturation format_2f s).
Proof. eexists. reflexivity. Qed.

Lemma advice_cases (h s : Q) :
  (50 <= h /\ s <= 0.6 /\ advice format_1f format_2f h s = [])
  \/ (exists alerts,
        advice format_1f format_2f h s = alerts ++ [medium_risk]
        /\ (length alerts <= 2)%nat
        /\ Forall alert_start alerts
        /\ (alerts = [] <-> 40 <= h /\ s <= 0.65)
        /\ ~ (50 <= h /\ s <= 0.6)).
Proof.
  pose proof (low_hue_start h) as Hlow.
  pose proof (high_saturation_start s) as Hhigh.
  unfold advice, gtb.
  destruct (ltb h 40) eqn:E1; destruct (ltb 0.65 s) eqn:E2;
    destruct (ltb h 50) eqn:E3; destruct (ltb 0.6 s) eqn:E4;
    try apply ltb_lt in E1; try apply ltb_ge in E1;
    try apply ltb_lt in E2; try apply ltb_ge in E2;
    try apply ltb_lt in E3; try apply ltb_ge in E3;
    try apply ltb_lt in E4; try apply ltb_ge in E4;
    try (exfalso; lra); cbn [orb app].
  all: try (left; repeat split; (assumption || reflexivity)).
  all: right.
  all: try (exists [low_hue format_1f h; high_saturation format_2f s];
            split; [reflexivity|]; split; [cbn; lia|];
            split; [repeat constructor; assumption|];
            split; [split; [discriminate | intros [? ?]; exfalso; lra]
                   | intros [? ?]; lra]).
  all: try (exists [low_hue format_1f h];
            split; [reflexivity|]; split; [cbn; lia|];
            split; [repeat constructor; assumption|];
            split; [split; [discriminate | intros [? ?]; exfalso; lra]
                   | intros [? ?]; lra]).
  all: try (exists [high_saturation format_2f s];
            split; [reflexivity|]; split; [cbn; lia|];
            split; [repeat constructor; assumption|];
            split; [split; [discriminate | intros [? ?]; exfalso; lra]
                   | intros [? ?]; lra]).
  all: exists []; split; [reflexivity|]; split; [cbn; lia|];
       split; [constructor|];
       split; [split; [intros _; split; lra | reflexivity] | intros [? ?]; lra].
Qed.

Lemma paragraphs_differ (alerts : list string) :
  Forall alert_start alerts ->
  String.concat (nl ++ nl) (alerts ++ [medium_risk]) <> all_clear.
Proof.
  intros Hall.
  destruct Hall as [|p l [rest ->] Hall]; [vm_compute; discriminate|].
  destruct l; cbv [app String.concat]; [|]; intros H;
    rewrite !append_cons in H; discriminate H.
Qed.

End AdviceFacts.

(** X20: whatever the number formats, the advice is the all-clear message
    exactly when [h >= 50] and [s <= 0.6]; otherwise it consists of at most
    two alert paragraphs followed by the medium-risk paragraph, so an alert
    never comes without it, and there is no alert paragraph exactly when
    [h >= 40] and [s <= 0.65]. *)
Theorem advice_structure (format_1f format_2f : Q -> string) (h s : Q) :
  (Advice._generate_advice format_1f format_2f h s = Advice.all_clear
   <-> 50 <= h /\ s <= 0.6)
  /\ (Advice.advice format_1f format_2f h s = []
      \/ exists alerts,
           Advice.advice format_1f format_2f h s = alerts ++ [Advice.medium_risk]
           /\ (length alerts <= 2)%nat
           /\ (alerts = [] <-> 40 <= h /\ s <= 0.65)).
Proof.
  destruct (advice_cases format_1f format_2f h s)
    as [(Hh & Hs & E) | (alerts & E & Hlen & Hstart & Hiff & Hno)].
  - split; [|now left].
    unfold Advice._generate_advice. rewrite E. split; [intros _; now split | reflexivity].
  - split.
    + pose proof (paragraphs_differ alerts Hstart) as Hne.
      unfold Advice._generate_advice. rewrite E.
      destruct (alerts ++ [Advice.medium_risk]) as [|p l] eqn:El;
        [destruct alerts; discriminate El|].
      split; [intros H; contradiction | intros H; contradiction].
    + right. exists alerts. split; [exact E|]. split; [exact Hlen | exact Hiff].
Qed.

(** ** The ledger and the exports *)

Section LedgerFacts.

Import Ledger.

Variable format_1f : Q -> string.
Variable format_2f : Q -> string.

Lemma analyze_image_cases (history : list Entry) (obs : Observation) :
  (accepted obs = false
   /\ analyze_image format_1f format_2f history obs = (None, history))
  \/ (accepted obs = true
      /\ exists entry,
           analyze_image format_1f format_2f history obs
           = (Some entry, history ++ [entry])
           /\ timestamp entry = now obs).
Proof.
  unfold analyze_image, accepted.
  destruct (preprocessed obs); cbn [negb andb]; [|now left].
  destruct (result obs) as [[detection classification]|].
  - right. split; [reflexivity|]. eexists. split; reflexivity.
  - left. split; reflexivity.
Qed.

Lemma analyze_all_appends (session : list Observation) :
  forall history,
  exists added,
    analyze_all format_1f format_2f history session = history ++ added
    /\ List.map timestamp added = List.map now (List.filter accepted session).
Proof.
  induction session as [|obs session IH]; intros history.
  - exists []. split; [now rewrite app_nil_r | reflexivity].
  - unfold analyze_all. cbn [fold_left List.filter].
    destruct (analyze_image_cases history obs)
      as [[Hacc ->] | (Hacc & entry & -> & Hts)]; rewrite Hacc; cbn [snd].
    + apply IH.
    + destruct (IH (history ++ [entry])) as (added & Hrun & Hmap).
      exists (entry :: added). split.
      * unfold analyze_all in Hrun. rewrite Hrun, <- app_assoc. reflexivity.
      * cbn [List.map]. now rewrite Hts, Hmap.
Qed.

End LedgerFacts.

(** X21: the ledger is append-only: analysing a sequence of images keeps
    the earlier records, in place and unchanged, and appends one record for
    each image that was preprocessed and analysed by the local model, in the
    order of the images; a failed analysis appends nothing. *)
Theorem ledger_append_only (format_1f format_2f : Q -> string)
    (history : list Ledger.Entry) (session : list Ledger.Observation) :
  exists added,
    Ledger.analyze_all format_1f format_2f history session = history ++ added
    /\ List.map Ledger.timestamp added
       = List.map Ledger.now (List.filter Ledger.accepted session)
    /\ length added = length (List.filter Ledger.accepted session).
Proof.
  destruct (analyze_all_appends format_1f format_2f session history) as (added & H1 & H2).
  exists added. split; [exact H1|]. split; [exact H2|].
  rewrite <- (length_map Ledger.timestamp), H2. apply length_map.
Qed.

(** X22: [get_data_export] returns [None] for an unknown data type; for
    ["feces_history"] it returns [None] exactly when no analysis of the
    session succeeded, and the table of the ledger otherwise; for
    ["simulation"] it exports a run of 100 days, or is left by
    [ZeroDivisionError] when the population is 0. *)
Theorem export_outcomes (format_1f format_2f : Q -> string)
    (simulation_csv : DataFrame -> string)
    (history_csv : list Ledger.Entry -> string)
    (self : AnimalDiseaseAI) (session : list Ledger.Observation) (data_type : string) :
  let ledger := Ledger.analyze_all format_1f format_2f [] session in
  let export := Ledger.get_data_export simulation_csv history_csv self ledger in
  (data_type <> "simulation"%string -> data_type <> "feces_history"%string ->
   export data_type = Return None)
  /\ (export "feces_history"%string = Return None
      <-> List.filter Ledger.accepted session = [])
  /\ (List.filter Ledger.accepted session <> [] ->
      export "feces_history"%string = Return (Some (history_csv ledger)))
  /\ (population (params self) == 0 ->
      export "simulation"%string = Raise ZeroDivisionError)
  /\ (~ population (params self) == 0 ->
      exists c, export "simulation"%string
                = Return (Some (simulation_csv {| Day := range 100; columns := c |}))
                /\ length (Susceptible c) = 100%nat).
Proof.
  intros ledger export.
  destruct (analyze_all_appends format_1f format_2f session []) as (added & Hrun & Hmap).
  fold ledger in Hrun. cbn [app] in Hrun.
  assert (Hempty : ledger = [] <-> List.filter Ledger.accepted session = []).
  { rewrite Hrun. split; intros H.
    - rewrite H in Hmap. cbn in Hmap.
      destruct (List.filter Ledger.accepted session); [reflexivity | discriminate Hmap].
    - rewrite H in Hmap. cbn in Hmap. destruct added; [reflexivity | discriminate Hmap]. }
  subst export. unfold Ledger.get_data_export.
  split; [|split; [|split; [|split]]].
  - intros H1 H2. apply String.eqb_neq in H1, H2. now rewrite H1, H2.
  - cbn [String.eqb Ascii.eqb Bool.eqb]. rewrite <- Hempty.
    destruct ledger; split; congruence.
  - intros Hne. cbn [String.eqb Ascii.eqb Bool.eqb].
    destruct ledger eqn:E; [|reflexivity]. exfalso. apply Hne. now apply Hempty.
  - intros Hpop. rewrite String.eqb_refl.
    now rewrite (generate_simulation_zero_population self 100 Hpop) by lia.
  - intros Hpop. rewrite String.eqb_refl.
    destruct (generate_simulation_returns self 100 Hpop) as (c & -> & Hc); [lia|].
    exists c. split; [reflexivity|]. now destruct Hc.
Qed.

(** ** More on the advisory client *)

Section ClientFacts.

Import Notions.

Variable service : nat -> outcome string.
Variable str_params : Params -> string.
Variable str_env_factors : EnvFactors -> string.

Lemma total_wait_backoff (f : nat) :
  forall r, (0 <= r)%Z ->
    total_wait (backoff_from r f)
    = (2 ^ (r + Z.of_nat f + 1) - 2 ^ (r + 1))%Z.
Proof.
  induction f as [|f IH]; intros r Hr.
  - unfold backoff_from, total_wait. cbn [seq List.map fold_right].
    change (Z.of_nat 0) with 0%Z. rewrite Z.add_0_r. lia.
  - rewrite backoff_from_succ. cbn [total_wait fold_right].
    fold (total_wait (backoff_from (r + 1) f)). rewrite IH by lia.
    replace (r + 1 + Z.of_nat f + 1)%Z with (r + Z.of_nat (S f) + 1)%Z by lia.
    replace (r + 1 + 1)%Z with (Z.succ (r + 1)) by lia.
    rewrite Z.pow_succ_r by lia. lia.
Qed.

Lemma total_wait_bound (f n : nat) :
  (f <= n)%nat ->
  (0 <= total_wait (backoff f) <= 2 ^ (Z.of_nat n + 1) - 2)%Z.
Proof.
  intros Hf. unfold backoff. rewrite total_wait_backoff by lia.
  change (2 ^ (0 + 1))%Z with 2%Z.
  assert (2 ^ (0 + Z.of_nat f + 1) <= 2 ^ (Z.of_nat n + 1))%Z
    by (apply Z.pow_le_mono_r; lia).
  assert (2 ^ 1 <= 2 ^ (0 + Z.of_nat f + 1))%Z by (apply Z.pow_le_mono_r; lia).
  change (2 ^ 1)%Z with 2%Z in *. lia.
Qed.

(** What a call of the retry client costs, for any [max_retries]. *)
Lemma retry_cost (n : nat) (w : world) :
  let res := retry_loop service n 0%Z w in
  (posts w <= posts (snd res) <= posts w + n)%nat
  /\ exists f, (f <= n)%nat /\ sleeps (snd res) = sleeps w ++ backoff f
       /\ (fst res = Return None \/ (f < n)%nat).
Proof.
  intros res. subst res.
  destruct (retry_loop_spec service n 0%Z w) as (f & Hf & _ & Hsleep & Hall & Hsome).
  split.
  - destruct (Nat.eq_dec f n) as [E | E].
    + destruct (Hall E) as [_ ->]. lia.
    + destruct Hsome as [-> _]; lia.
  - exists f. split; [exact Hf|]. split; [exact Hsleep|].
    destruct (Nat.eq_dec f n) as [E | E]; [left; now apply Hall | right; lia].
Qed.

End ClientFacts.

(** X23: for every [max_retries], a call of the retry client issues at
    most [max(0, max_retries)] requests, only appends to the waits, and waits
    at most [2^(max_retries+1) - 2] in total (14 by default); with
    [max_retries <= 0] it returns [None] at once, without any request. *)
Theorem retry_budget (service : nat -> outcome string) (self : AnimalDiseaseAI)
    (query : string) (max_retries : Z) (w : world) :
  let res := ai_analysis_with_retry service self query max_retries w in
  (posts w <= posts (snd res) <= posts w + Z.to_nat max_retries)%nat
  /\ (exists added,
        sleeps (snd res) = sleeps w ++ added
        /\ (0 <= Notions.total_wait added
            <= 2 ^ (Z.of_nat (Z.to_nat max_retries) + 1) - 2)%Z)
  /\ ((max_retries <= 0)%Z -> res = (Return None, w)).
Proof.
  intros res. subst res. unfold ai_analysis_with_retry.
  destruct (retry_cost service (Z.to_nat max_retries) w) as (Hposts & f & Hf & Hsleep & _).
  split; [exact Hposts|]. split.
  - exists (backoff f). split; [exact Hsleep|]. now apply total_wait_bound.
  - intros Hn. replace (Z.to_nat max_retries) with 0%nat by lia. reflexivity.
Qed.

(** X24: [ai_analysis] never removes or overwrites a cache entry and
    touches no key but its own; it leaves the parameters and the environment
    as they are; it issues at most 3 requests and waits at most 14 units;
    and on a cache hit it returns the cached text without any request or
    wait, whatever the service would answer. *)
Theorem cache_only_grows (service : nat -> outcome string)
    (str_params : Params -> string) (str_env_factors : EnvFactors -> string)
    (self : AnimalDiseaseAI) (query : string) (w : world) :
  let r := ai_analysis service str_params str_env_factors self query w in
  let self' := fst (snd r) in
  let w' := snd (snd r) in
  let key := cache_key str_params str_env_factors self query in
  (forall k text, analysis_cache self !! k = Some text ->
                  analysis_cache self' !! k = Some text)
  /\ (forall k, k <> key -> analysis_cache self' !! k = analysis_cache self !! k)
  /\ params self' = params self /\ env_factors self' = env_factors self
  /\ (posts w <= posts w' <= posts w + 3)%nat
  /\ (exists added, sleeps w' = sleeps w ++ added
        /\ (0 <= Notions.total_wait added <= 14)%Z)
  /\ (forall text, analysis_cache self !! key = Some text ->
                   r = (Return (Some text), (self, w))).
Proof.
  intros r self' w' key. subst r self' w'. unfold ai_analysis. fold key.
  destruct (analysis_cache self !! key) as [cached|] eqn:Hlook.
  - cbn [fst snd]. repeat split; try done; try lia.
    + exists []. rewrite app_nil_r. split; [reflexivity | cbn; lia].
    + intros text H. now injection H as ->.
  - change (ai_analysis_with_retry service self query 3 w)
      with (retry_loop service 3 0%Z w).
    destruct (retry_cost service 3 w) as (Hposts & f & Hf & Hsleep & _).
    pose proof (total_wait_bound f 3 Hf) as Hwait.
    change (2 ^ (Z.of_nat 3 + 1) - 2)%Z with 14%Z in Hwait.
    destruct (retry_loop service 3 0%Z w) as [[[text|]|e] w1]; cbn [fst snd] in *.
    + destruct (truthy (Some text)); cbn [analysis_cache params env_factors set_cache].
      * repeat split; try done; try lia.
        -- intros k t Hk. rewrite lookup_insert_ne; [exact Hk|]. congruence.
        -- intros k Hk. now rewrite lookup_insert_ne by congruence.
        -- now exists (backoff f).
      * repeat split; try done; try lia. now exists (backoff f).
    + repeat split; try done; try lia. now exists (backoff f).
    + repeat split; try done; try lia. now exists (backoff f).
Qed.

(** X25: an exception that is neither a [RequestException] nor a
    [KeyError] is not handled: when, on a cache miss and after [f < 3] failed
    requests, the request raises such an exception, it leaves [ai_analysis]
    at once, after [f + 1] requests and the [f] waits made so far, and
    caches nothing. *)
Theorem foreign_exception_escapes (service : nat -> outcome string)
    (str_params : Params -> string) (str_env_factors : EnvFactors -> string)
    (self : AnimalDiseaseAI) (query : string) (w : world) (f : nat) (e : exn) :
  analysis_cache self !! cache_key str_params str_env_factors self query = None ->
  (f < 3)%nat ->
  (forall j, (j < f)%nat -> service (posts w + j)%nat = Raise RequestException) ->
  service (posts w + f)%nat = Raise e ->
  e <> RequestException -> e <> KeyError ->
  ai_analysis service str_params str_env_factors self query w
  = (Raise e, (self, {| posts := posts w + f + 1; sleeps := sleeps w ++ backoff f |})).
Proof.
  intros Hmiss Hf Hfail He Hne1 Hne2. unfold ai_analysis. rewrite Hmiss.
  change (ai_analysis_with_retry service self query 3 w)
    with (retry_loop service 3 0%Z w).
  destruct (retry_loop_spec service 3 0%Z w) as (f0 & Hf0 & Hfail0 & Hsleep & Hend).
  assert (E : f0 = f).
  { apply (failed_requests_unique service 3 w f0 f (retry_loop service 3 0%Z w));
      try assumption; try lia.
    right. rewrite He. congruence. }
  subst f0. destruct Hend as [_ Hsome]. destruct Hsome as [Hposts Hcase]; [exact Hf|].
  rewrite He in Hcase. fold (backoff f) in Hsleep.
  destruct (retry_loop service 3 0%Z w) as [o [p sl]]. cbn [fst snd posts sleeps] in *.
  subst p sl.
  destruct e; try contradiction; now rewrite Hcase.
Qed.

Lemma foreign_exception_escapes_witness :
  ai_analysis (fun n => match n with O => Raise RequestException | _ => Raise ValueError end)
    Inputs.no_str Inputs.no_str init "q" Inputs.fresh
  = (Raise ValueError,
     (init, {| posts := 0 + 1 + 1; sleeps := [] ++ backoff 1 |})).
Proof.
  apply (foreign_exception_escapes _ Inputs.no_str Inputs.no_str init "q" Inputs.fresh 1
           ValueError).
  - reflexivity.
  - lia.
  - intros [|j] Hj; [reflexivity | lia].
  - reflexivity.
  - discriminate.
  - discriminate.
Defined.

(** ** Scenario B in binary64 *)

Section ScenarioB.

#[local] Set Warnings "-inexact-float".

(** C4, as worded: evaluated as the source evaluates it, in binary64, the
    avian-flu term of scenario B is not 0.3 and the score is not 0.9 (the
    comparison is that of [==] on [float]). *)
Lemma scenario_B_not_exact :
  PrimFloat.eqb (Binary64.avian_flu_risk 35 0.7) 0.3 = false
  /\ PrimFloat.eqb (Binary64.total_risk [] [] 35 0.7) 0.9 = false.
Proof. split; vm_compute; reflexivity. Qed.

(** C4, amended: for [hue_mean = 35], [saturation_mean = 0.7] and no
    detection and no classification, the engine computes in binary64: the
    sum [(40-35)/10 + (0.7-0.65)/0.1] is 0.9999999999999993, below 1, so
    that [min] keeps it; [avian_flu_risk] is 0.3 times it,
    0.29999999999999977; both colour bonuses are granted and [total_risk] is
    0.8999999999999997; the threshold is 0.65, no poultry being detected; and
    the verdict is [HighRisk].  The values 1, 0.3 and 0.9 are those of exact
    arithmetic. *)
Theorem scenario_B_binary64 :
  Binary64.inner_sum 35 0.7 = 0.99999999999999933%float
  /\ Binary64.min (Binary64.inner_sum 35 0.7) 1 = Binary64.inner_sum 35 0.7
  /\ Binary64.avian_flu_risk 35 0.7 = 0.29999999999999977%float
  /\ PrimFloat.ltb 35 50 = true /\ PrimFloat.ltb 0.6 0.7 = true
  /\ Binary64.total_risk [] [] 35 0.7 = 0.89999999999999969%float
  /\ Binary64.threshold [] = 0.65%float
  /\ Binary64.risk_level [] [] 35 0.7 = HighRisk
  /\ (40 - 35) / 10 + (0.7 - 0.65) / 0.1 == 1
  /\ RiskScoring.avian_flu_risk 35 0.7 == 0.3
  /\ RiskScoring.total_risk [] [] 35 0.7 == 0.9.
Proof. repeat split; vm_compute; reflexivity. Qed.

End ScenarioB.

(** ** Malformed responses *)

Section Shapes.

Import Response.





End Shapes.



